(** * gemini-proxy: the streaming translation engine of [src/api/proxy.js]

    A shallow embedding of the parts of [handler], [processLine],
    [convertOpenAIToGoogle] and [convertGoogleToOpenAI] that translate
    between the OpenAI-style and the Google-style wire protocols, and the
    properties of the specification that concern them.

    Conventions.
    - A JavaScript string is the list of its UTF-16 code units ([jsstring]).
    - A JavaScript value that came out of [JSON.parse] or is built by an
      object literal is a [value]; numbers are the exact rationals they
      denote (IEEE rounding is not modelled, no property below depends on it).
    - What the platform provides and the repository does not define
      ([JSON.parse], [Date.now], [Number::toString], the [DEBUG] flag read
      from the environment) is a field of [Platform]; every general theorem
      holds for all platforms.
    - Effects ([res.write], [console.log], [console.error], [res.end]) are
      recorded, in order, in the [trace] of a [world]. *)

From Stdlib Require Import List Bool Arith ZArith NArith QArith Lia.
From Stdlib Require Import Strings.Ascii Strings.String Strings.Byte.
From Stdlib Require Import Numbers.DecimalString.
Import ListNotations.

Set Implicit Arguments.
Local Open Scope Z_scope.

(** ** JavaScript strings *)

Module JsString.

Definition code_unit := N.
Definition jsstring := list code_unit.

(** A string literal of the source, as code units. *)
Definition lit (s : string) : jsstring :=
  map N_of_ascii (list_ascii_of_string s).

Definition LF : code_unit := 10%N.

Fixpoint eqb (a b : jsstring) : bool :=
  match a, b with
  | [], [] => true
  | x :: a', y :: b' => N.eqb x y && eqb a' b'
  | _, _ => false
  end.

(** [s.length] *)
Definition length (s : jsstring) : Z := Z.of_nat (List.length s).

(** [s.startsWith(p)] *)
Fixpoint startsWith (s p : jsstring) : bool :=
  match p, s with
  | [], _ => true
  | _ :: _, [] => false
  | a :: p', b :: s' => N.eqb a b && startsWith s' p'
  end.

Fixpoint indexOf_from (s p : jsstring) (i : Z) : Z :=
  match s with
  | [] => if startsWith [] p then i else -1
  | _ :: t => if startsWith s p then i else indexOf_from t p (i + 1)
  end.

(** [s.indexOf(p)]: the first position at which [p] occurs, or -1. *)
Definition indexOf (s p : jsstring) : Z := indexOf_from s p 0.

(** [s.includes(p)] *)
Definition includes (s p : jsstring) : bool :=
  negb (indexOf s p =? -1).

(** Relative index of [slice]: negative counts from the end, and the
    result is clamped to [0 .. len]. *)
Definition relative (len i : Z) : Z :=
  if i <? 0 then Z.max (len + i) 0 else Z.min i len.

(** [s.slice(start, end)] *)
Definition slice (s : jsstring) (start end_ : Z) : jsstring :=
  let len := length s in
  let from := relative len start in
  let to := relative len end_ in
  firstn (Z.to_nat (to - from)) (skipn (Z.to_nat from) s).

(** [s.slice(start)] *)
Definition slice_from (s : jsstring) (start : Z) : jsstring :=
  slice s start (length s).

(** WhiteSpace and LineTerminator code points of ECMAScript, the ones
    [trim] strips. All of them are in the basic plane. *)
Definition is_space (c : code_unit) : bool :=
  ((9 <=? c) && (c <=? 13) || (c =? 32) || (c =? 160) || (c =? 5760)
   || (8192 <=? c) && (c <=? 8202) || (c =? 8232) || (c =? 8233)
   || (c =? 8239) || (c =? 8287) || (c =? 12288) || (c =? 65279))%N.

Fixpoint trimStart (s : jsstring) : jsstring :=
  match s with
  | c :: t => if is_space c then trimStart t else s
  | [] => []
  end.

Definition trimEnd (s : jsstring) : jsstring := rev (trimStart (rev s)).

(** [s.trim()] *)
Definition trim (s : jsstring) : jsstring := trimEnd (trimStart s).

(** A string in a condition: the empty string is the only falsy one. *)
Definition truthy (s : jsstring) : bool :=
  match s with [] => false | _ :: _ => true end.

(** Decimal digits of an integer, as [String(n)] prints an integral
    number below 10^21. *)
Definition of_Z (n : Z) : jsstring :=
  lit (NilEmpty.string_of_int (Z.to_int n)).

End JsString.
Import JsString.

(** ** The streaming UTF-8 decoder

    [new TextDecoder()] followed by [decoder.decode(value, {stream: true})]:
    the UTF-8 decoder of the Encoding standard in replacement mode, with the
    byte order mark stripped. The state survives from one call to the next,
    and the source never flushes it. *)

Module TextDecoder.

Record state := {
  code_point : N;
  bytes_seen : N;
  bytes_needed : N;
  lower_boundary : N;
  upper_boundary : N;
  BOM_seen : bool
}.

Definition fresh : state :=
  {| code_point := 0; bytes_seen := 0; bytes_needed := 0;
     lower_boundary := 128; upper_boundary := 191; BOM_seen := false |}.

Definition reset (st : state) : state :=
  {| code_point := 0; bytes_seen := 0; bytes_needed := 0;
     lower_boundary := 128; upper_boundary := 191;
     BOM_seen := BOM_seen st |}.

Definition between (lo hi b : N) : bool := ((lo <=? b) && (b <=? hi))%N.

Definition replacement : N := 65533%N.

(** A byte read when no sequence is open. [st] is a reset state. *)
Definition lead (st : state) (b : N) : state * list N :=
  if (b <=? 127)%N then (st, [b])
  else if between 194 223 b then
    ({| code_point := N.land b 31; bytes_seen := 0; bytes_needed := 1;
        lower_boundary := 128; upper_boundary := 191;
        BOM_seen := BOM_seen st |}, [])
  else if between 224 239 b then
    ({| code_point := N.land b 15; bytes_seen := 0; bytes_needed := 2;
        lower_boundary := if (b =? 224)%N then 160%N else 128%N;
        upper_boundary := if (b =? 237)%N then 159%N else 191%N;
        BOM_seen := BOM_seen st |}, [])
  else if between 240 244 b then
    ({| code_point := N.land b 7; bytes_seen := 0; bytes_needed := 3;
        lower_boundary := if (b =? 240)%N then 144%N else 128%N;
        upper_boundary := if (b =? 244)%N then 143%N else 191%N;
        BOM_seen := BOM_seen st |}, [])
  else (st, [replacement]).

(** The decoder's handler on one byte: the scalar values it emits. *)
Definition handler (st : state) (b : N) : state * list N :=
  if (bytes_needed st =? 0)%N then lead st b
  else if negb (between (lower_boundary st) (upper_boundary st) b) then
    (* malformed: one replacement character, and the byte is read anew *)
    let (st', items) := lead (reset st) b in (st', replacement :: items)
  else
    let cp := N.lor (N.shiftl (code_point st) 6) (N.land b 63) in
    if (bytes_seen st + 1 =? bytes_needed st)%N then (reset st, [cp])
    else
      ({| code_point := cp; bytes_seen := bytes_seen st + 1;
          bytes_needed := bytes_needed st;
          lower_boundary := 128; upper_boundary := 191;
          BOM_seen := BOM_seen st |}, []).

(** A scalar value as UTF-16 code units. *)
Definition utf16 (cp : N) : jsstring :=
  if (cp <=? 65535)%N then [cp]
  else
    let v := (cp - 65536)%N in
    [(55296 + N.shiftr v 10)%N; (56320 + N.land v 1023)%N].

Definition see_BOM (st : state) : state :=
  {| code_point := code_point st; bytes_seen := bytes_seen st;
     bytes_needed := bytes_needed st;
     lower_boundary := lower_boundary st;
     upper_boundary := upper_boundary st; BOM_seen := true |}.

(** Output of the emitted scalar values; the first one is dropped when it
    is the byte order mark. *)
Fixpoint serialize (st : state) (items : list N) : state * jsstring :=
  match items with
  | [] => (st, [])
  | cp :: rest =>
      if BOM_seen st then
        let (st', out) := serialize st rest in (st', utf16 cp ++ out)
      else if (cp =? 65279)%N then serialize (see_BOM st) rest
      else
        let (st', out) := serialize (see_BOM st) rest in
        (st', utf16 cp ++ out)
  end.

(** [decoder.decode(value, {stream: true})]: the text of one chunk and the
    state the decoder is left in. *)
Fixpoint decode (st : state) (value : list byte) : jsstring * state :=
  match value with
  | [] => ([], st)
  | b :: rest =>
      let (st1, items) := handler st (Byte.to_N b) in
      let (st2, text) := serialize st1 items in
      let (more, st3) := decode st2 rest in
      (text ++ more, st3)
  end.

End TextDecoder.


(** ** JavaScript values *)

Module Js.

Inductive exn := TypeError | SyntaxError | NetworkError.

(** The outcome of an expression that may throw. *)
Inductive result (A : Type) :=
| Return (a : A)
| Throw (e : exn).
Arguments Return {A} a.
Arguments Throw {A} e.

Definition bind {A B} (r : result A) (k : A -> result B) : result B :=
  match r with
  | Return a => k a
  | Throw e => Throw e
  end.

#[warnings="-register-all"]
Inductive value :=
| VUndefined
| VNull
| VBool (b : bool)
| VNumber (q : Q)
| VString (s : jsstring)
| VArray (items : list value)
| VObject (props : list (jsstring * value)).

(** The value of a condition ([if (v)], [!v], [v || d], [v ? a : b]). *)
Definition ToBoolean (v : value) : bool :=
  match v with
  | VUndefined | VNull => false
  | VBool b => b
  | VNumber q => negb (Qeq_bool q 0)
  | VString s => truthy s
  | VArray _ | VObject _ => true
  end.

(** [a || b] *)
Definition or_else (a b : value) : value :=
  if ToBoolean a then a else b.

Definition nullish (v : value) : bool :=
  match v with
  | VUndefined | VNull => true
  | _ => false
  end.

(** The own property [k] of an object literal or parsed object. *)
Fixpoint own (props : list (jsstring * value)) (k : jsstring) : value :=
  match props with
  | [] => VUndefined
  | (k', v) :: rest => if eqb k k' then v else own rest k
  end.

Definition has_own (props : list (jsstring * value)) (k : jsstring) : bool :=
  existsb (fun kv => eqb k (fst kv)) props.

(** [v.name] for the names the source reads ([candidates], [content],
    [parts], [text], [error], [message], [code], [messages],
    [temperature], [model]): none of them is a property of the prototype
    of an array, a string, a number or a boolean, so only an object can
    answer; reading a property of [null] or [undefined] throws. *)
Definition member (v : value) (name : jsstring) : result value :=
  match v with
  | VUndefined | VNull => Throw TypeError
  | VObject props => Return (own props name)
  | _ => Return VUndefined
  end.

(** [v?.name]: the whole chain to the right is [undefined] on a nullish
    [v]; every link to the right of one is itself optional in the source,
    so the links compose. *)
Definition opt_member (v : value) (name : jsstring) : value :=
  match v with
  | VObject props => own props name
  | _ => VUndefined
  end.

(** [v?.[0]] *)
Definition opt_first (v : value) : value :=
  match v with
  | VArray items => nth 0 items VUndefined
  | VString (c :: _) => VString [c]
  | VObject props => own props (lit "0")
  | _ => VUndefined
  end.

End Js.
Import Js.

Notation "x <- r ;; k" := (bind r (fun x => k))
  (at level 61, r at next level, right associativity).

(** ** What the platform provides *)

Class Platform := {
  (** [process.env.DEBUG === 'true'] *)
  DEBUG : bool;
  (** the number returned by the n-th call of [Date.now()] *)
  Date_now : nat -> Z;
  (** [JSON.parse]; [None] when it throws a [SyntaxError] *)
  JSON_parse : jsstring -> option value;
  (** the digits of a number, as string concatenation and [join] print it *)
  Number_toString : Q -> jsstring
}.

(** ** Effects *)

Inductive log_line :=
| Processing_line (line : jsstring)
| Parse_error (e : exn)
| Parse_error_for_line (line : jsstring)
| Parse_error_details (e : exn)
| Stream_processing_error (e : exn).

Inductive event :=
(** [processLine(line)] is entered: a mark, not an effect *)
| call_processLine (line : jsstring)
(** [res.write('data: [DONE]\n\n')] *)
| res_write_DONE
(** [res.write(`data: ${JSON.stringify(openAIChunk)}\n\n`)] *)
| res_write_data (openAIChunk : value)
| console_log (l : log_line)
| console_error (l : log_line)
| res_end.

Record world := {
  trace : list event;
  clock : nat  (** how many times [Date.now()] was called *)
}.

Definition emit (e : event) (w : world) : world :=
  {| trace := trace w ++ [e]; clock := clock w |}.

Definition start : world := {| trace := []; clock := 0 |}.

(** [Date.now()] *)
Definition Date_now_call `{Platform} (w : world) : Z * world :=
  (Date_now (clock w), {| trace := trace w; clock := S (clock w) |}).

(** ** Conversions to string: [String(v)], [a.join(sep)] *)

Section ToString.
Context `{Platform}.

(** [String(v)] for a value that came out of [JSON.parse]. An object
    prints as [[object Object]] through [Object.prototype.toString]; one
    whose own [toString] property shadows it has nothing callable left
    that returns a primitive, and the conversion throws. *)
Fixpoint ToString (v : value) : result jsstring :=
  match v with
  | VUndefined => Return (lit "undefined")
  | VNull => Return (lit "null")
  | VBool true => Return (lit "true")
  | VBool false => Return (lit "false")
  | VNumber q => Return (Number_toString q)
  | VString s => Return s
  | VArray items =>
      (fix join (items : list value) : result jsstring :=
         match items with
         | [] => Return []
         | x :: rest =>
             s <- (if nullish x then Return [] else ToString x) ;;
             match rest with
             | [] => Return s
             | _ :: _ => r <- join rest ;; Return (s ++ lit "," ++ r)
             end
         end) items
  | VObject props =>
      if has_own props (lit "toString") then Throw TypeError
      else Return (lit "[object Object]")
  end.

(** [items.join(sep)] *)
Fixpoint join (items : list value) (sep : jsstring) : result jsstring :=
  match items with
  | [] => Return []
  | x :: rest =>
      s <- (if nullish x then Return [] else ToString x) ;;
      match rest with
      | [] => Return s
      | _ :: _ => r <- join rest sep ;; Return (s ++ sep ++ r)
      end
  end.

(** [items.map(f)] for a callback that may throw *)
Fixpoint Array_map (f : value -> result value) (items : list value)
  : result (list value) :=
  match items with
  | [] => Return []
  | x :: rest =>
      y <- f x ;; ys <- Array_map f rest ;; Return (y :: ys)
  end.

End ToString.

(** ** The request translator: [convertOpenAIToGoogle], lines 190-205 *)

Section Request.
Context `{Platform}.

Definition convertOpenAIToGoogle (openAIRequest : value) : result value :=
  m <- member openAIRequest (lit "messages") ;;
  let messages := or_else m (VArray []) in
  mapped <- match messages with
            | VArray items =>
                Array_map (fun msg => member msg (lit "content")) items
            | _ => Throw TypeError (* [messages.map] is not a function *)
            end ;;
  prompt <- join mapped [LF] ;;
  temperature <- member openAIRequest (lit "temperature") ;;
  Return
    (VObject
       [(lit "contents",
          VArray [VObject
            [(lit "parts", VArray [VObject [(lit "text", VString prompt)]])]]);
        (lit "generationConfig",
          VObject
            [(lit "temperature", or_else temperature (VNumber (7 # 10)))])]).

(** The model name the handler works with, lines 37-38:
    [openAIRequest.model?.includes('gemini') ? openAIRequest.model
     : 'gemini-pro']. A string answers [includes] by substring, an array
    by membership; any other value that is not nullish has no such
    method, and the call throws. *)
Definition handler_model (openAIRequest : value) : result value :=
  m <- member openAIRequest (lit "model") ;;
  match m with
  | VUndefined | VNull => Return (VString (lit "gemini-pro"))
  | VString s =>
      Return (if includes s (lit "gemini") then m
              else VString (lit "gemini-pro"))
  | VArray items =>
      Return (if existsb (fun x => match x with
                                   | VString s => eqb s (lit "gemini")
                                   | _ => false
                                   end) items
              then m else VString (lit "gemini-pro"))
  | _ => Throw TypeError
  end.

End Request.

(** ** The streaming path of [handler], lines 89-171 *)

(** What one [await reader.read()] gives before the stream is done:
    [{done: false, value}] or a rejection. The end of the list of reads is
    [{done: true}]. *)
Inductive read :=
| chunk_of (value : list byte)
| rejects (e : exn).

Section Streaming.
Context `{Platform}.

(** [model], the variable of [handler] that [processLine] closes over. *)
Variable model : value.

(** The [catch] of [processLine], lines 163-170. *)
Definition processLine_catch (e : exn) (line : jsstring) (w : world)
  : world :=
  let w := emit (console_error (Parse_error e)) w in
  if DEBUG then
    let w := emit (console_error (Parse_error_for_line line)) w in
    emit (console_error (Parse_error_details e)) w
  else w.

(** [googleChunk.candidates?.[0]?.content?.parts?.[0]?.text], line 144 *)
Definition chunk_content (googleChunk : value) : result value :=
  candidates <- member googleChunk (lit "candidates") ;;
  Return
    (opt_member
       (opt_first
          (opt_member
             (opt_member (opt_first candidates) (lit "content"))
             (lit "parts")))
       (lit "text")).

(** The object literal of lines 147-159. *)
Definition openAIChunk (id_now created_now : Z) (content : value) : value :=
  VObject
    [(lit "id",
       VString (lit "chatcmpl-" ++ Number_toString (inject_Z id_now)));
     (lit "object", VString (lit "chat.completion.chunk"));
     (lit "created", VNumber (created_now # 1000));
     (lit "model", model);
     (lit "choices",
       VArray [VObject
         [(lit "index", VNumber 0);
          (lit "delta", VObject [(lit "content", content)]);
          (lit "finish_reason", VNull)]])].

(** [processLine], lines 128-171. *)
Definition processLine (line : jsstring) (w : world) : world :=
  let w := emit (call_processLine line) w in
  if negb (truthy (trim line)) || negb (startsWith line (lit "data: "))
  then w
  else
    let data := slice_from line 6 in
    if eqb data (lit "[DONE]") then emit res_write_DONE w
    else
      let w := if DEBUG then emit (console_log (Processing_line line)) w
               else w in
      match JSON_parse data with
      | None => processLine_catch SyntaxError line w
      | Some googleChunk =>
          match chunk_content googleChunk with
          | Throw e => processLine_catch e line w
          | Return content =>
              if ToBoolean content then
                let (id_now, w) := Date_now_call w in
                let (created_now, w) := Date_now_call w in
                emit (res_write_data
                        (openAIChunk id_now created_now content)) w
              else w
          end
      end.

(** The inner loop, lines 112-118: one turn for each newline found in
    [buffer]. Every turn shortens the buffer, so a fuel above its length
    is never used up (see [take_lines_eq]). *)
Fixpoint take_lines_fuel (fuel : nat) (buffer : jsstring) (w : world)
  : jsstring * world :=
  match fuel with
  | O => (buffer, w)
  | S fuel =>
      let newlineIndex := indexOf buffer [LF] in
      if newlineIndex =? -1 then (buffer, w)
      else
        let line := slice buffer 0 newlineIndex in
        let buffer := slice_from buffer (newlineIndex + 1) in
        let w := if truthy (trim line) then processLine line w else w in
        take_lines_fuel fuel buffer w
  end.

Definition take_lines (buffer : jsstring) (w : world) : jsstring * world :=
  take_lines_fuel (S (List.length buffer)) buffer w.

(** The variables of one stream: [buffer], [decoder], and the world. *)
Record stream := {
  buffer : jsstring;
  decoder : TextDecoder.state;
  out : world
}.

(** A turn of the outer loop on [{done: false, value}], lines 107-118. *)
Definition on_value (value : list byte) (st : stream) : stream :=
  let (chunk, decoder) := TextDecoder.decode (decoder st) value in
  let buffer := buffer st ++ chunk in
  let (buffer, w) := take_lines buffer (out st) in
  {| buffer := buffer; decoder := decoder; out := w |}.

(** The turn on [{done: true}], lines 99-105. *)
Definition on_done (st : stream) : world :=
  let w := if truthy (buffer st) then processLine (buffer st) (out st)
           else out st in
  emit res_write_DONE w.

(** [while (true)], lines 96-119: what was thrown, if anything, and the
    world the loop leaves. *)
Fixpoint read_loop (reads : list read) (st : stream) : option exn * world :=
  match reads with
  | [] => (None, on_done st)
  | rejects e :: _ => (Some e, out st)
  | chunk_of value :: reads => read_loop reads (on_value value st)
  end.

(** Lines 89-125: [try { ... } catch (e) { ... } finally { res.end() }]. *)
Definition handler_stream (reads : list read) (w : world) : world :=
  let st := {| buffer := []; decoder := TextDecoder.fresh; out := w |} in
  let (thrown, w) := read_loop reads st in
  let w := match thrown with
           | Some e => emit (console_error (Stream_processing_error e)) w
           | None => w
           end in
  emit res_end w.

End Streaming.

(** ** The response translator: [convertGoogleToOpenAI], lines 207-250 *)

Section Response.
Context `{Platform}.

(** Only the first read, [googleResponse.error], can throw: once it has
    succeeded [googleResponse] is not nullish, and [error] and [content]
    are read further only after they were found truthy. The reads that
    follow are therefore written with the links that do not throw. *)
Definition convertGoogleToOpenAI (googleResponse model : value) (w : world)
  : result value * world :=
  match member googleResponse (lit "error") with
  | Throw e => (Throw e, w)
  | Return error =>
      if ToBoolean error then
        (Return
           (VObject
              [(lit "error",
                 VObject
                   [(lit "message", opt_member error (lit "message"));
                    (lit "type", VString (lit "invalid_request_error"));
                    (lit "code", opt_member error (lit "code"))])]), w)
      else
        let content :=
          opt_member
            (opt_first (opt_member googleResponse (lit "candidates")))
            (lit "content") in
        if negb (ToBoolean content) then
          (Return
             (VObject
                [(lit "error",
                   VObject
                     [(lit "message", VString (lit "No content generated"));
                      (lit "type",
                        VString (lit "invalid_response_error"))])]), w)
        else
          let (id_now, w) := Date_now_call w in
          let (created_now, w) := Date_now_call w in
          (Return
             (VObject
                [(lit "id",
                   VString
                     (lit "chatcmpl-" ++ Number_toString (inject_Z id_now)));
                 (lit "object", VString (lit "chat.completion"));
                 (lit "created", VNumber (created_now # 1000));
                 (lit "model", model);
                 (lit "choices",
                   VArray [VObject
                     [(lit "index", VNumber 0);
                      (lit "message",
                        VObject
                          [(lit "role", VString (lit "assistant"));
                           (lit "content",
                             or_else
                               (opt_member
                                  (opt_first
                                     (opt_member content (lit "parts")))
                                  (lit "text"))
                               (VString []))]);
                      (lit "finish_reason", VString (lit "stop"))]]);
                 (lit "usage",
                   VObject
                     [(lit "prompt_tokens", VNumber (-1));
                      (lit "completion_tokens", VNumber (-1));
                      (lit "total_tokens", VNumber (-1))])]), w)
  end.

End Response.

(** ** The whole of [handler], lines 4-188

    The request as the handler reads it, the one call of [fetch] with what
    it is given, and everything done to [res], in order. [new URL(...)]
    cannot fail on a string that begins with [baseUrl], so the address is
    kept as that string and the search parameters set on it. *)

Record request := {
  (** [req.method] *)
  req_method : jsstring;
  (** [req.headers.authorization], absent or a string *)
  req_authorization : option jsstring;
  (** [req.body] *)
  req_body : value
}.

(** The arguments of the call of [fetch], lines 43-67. *)
Record upstream_call := {
  (** the string [new URL] is given *)
  call_url : jsstring;
  (** [searchParams.set('key', ...)] *)
  call_key : jsstring;
  (** [searchParams.set('alt', ...)], when it is done *)
  call_alt : option jsstring;
  (** the value whose [JSON.stringify] is the body *)
  call_body : value
}.

(** What [fetch] resolves to, as far as the handler looks at it. *)
Record response := {
  response_ok : bool;
  response_status : Z;
  (** [await response.json()] *)
  response_json : result value;
  (** the reads of [response.body.getReader()] *)
  response_reads : list read
}.

Inductive handler_log :=
| OpenAI_Request (v : value)
| Google_Request (v : value)
| Google_API_Error (v : value)
| Google_Response (v : value)
| Proxy_error (e : exn).

Inductive effect :=
(** [res.setHeader(name, v)] *)
| res_setHeader (name v : jsstring)
(** [res.status(code).end()] *)
| res_status_end (code : Z)
(** [res.status(code).json(body)] *)
| res_status_json (code : Z) (body : value)
(** [fetch(...)] *)
| fetch_call (c : upstream_call)
| handler_console_log (l : handler_log)
| handler_console_error (l : handler_log)
(** an event of the streaming path *)
| in_stream (e : event).

(** [s.split(' ')], with [cur] the piece begun. *)
Fixpoint split_space_from (cur s : jsstring) : list jsstring :=
  match s with
  | [] => [cur]
  | c :: t =>
      if (c =? 32)%N then cur :: split_space_from [] t
      else split_space_from (cur ++ [c]) t
  end.

Definition split_space (s : jsstring) : list jsstring :=
  split_space_from [] s.

Definition baseUrl : jsstring :=
  lit "https://generativelanguage.googleapis.com/v1beta/models".

(** Lines 6-9. *)
Definition CORS_headers : list effect :=
  [res_setHeader (lit "Access-Control-Allow-Origin") (lit "*");
   res_setHeader (lit "Access-Control-Allow-Methods") (lit "POST, OPTIONS");
   res_setHeader (lit "Access-Control-Allow-Headers")
     (lit "Content-Type, Authorization");
   res_setHeader (lit "Access-Control-Max-Age") (lit "86400")].

(** Lines 85-87. *)
Definition stream_headers : list effect :=
  [res_setHeader (lit "Content-Type") (lit "text/event-stream");
   res_setHeader (lit "Cache-Control") (lit "no-cache");
   res_setHeader (lit "Connection") (lit "keep-alive")].

(** [{ error: msg }] *)
Definition plain_error (msg : jsstring) : value :=
  VObject [(lit "error", VString msg)].

Section Handler.
Context `{Platform}.

(** [fetch], as what it resolves to for a call, or the error it rejects
    with. *)
Variable fetch : upstream_call -> result response.

(** Lines 69-81: the backend did not answer with success. *)
Definition upstream_failed (response : response) (done : list effect)
           (clock0 : nat) : list effect * nat * option exn :=
  match response_json response with
  | Throw e => (done, clock0, Some e)
  | Return errorData =>
      let done :=
        done ++ (if DEBUG
                 then [handler_console_log (Google_API_Error errorData)]
                 else []) in
      match member errorData (lit "error") with
      | Throw e => (done, clock0, Some e)
      | Return error =>
          (done
             ++ [res_status_json (response_status response)
                   (VObject
                      [(lit "error",
                         VObject
                           [(lit "message",
                              or_else (opt_member error (lit "message"))
                                (VString (lit "Google API error")));
                            (lit "type", VString (lit "google_api_error"));
                            (lit "code",
                              VNumber (inject_Z (response_status response)))])])],
           clock0, None)
      end
  end.

(** Lines 174-182: the answer that is not streamed. *)
Definition answer_whole (response : response) (model : value)
           (done : list effect) (clock0 : nat)
  : list effect * nat * option exn :=
  match response_json response with
  | Throw e => (done, clock0, Some e)
  | Return googleResponse =>
      let done :=
        done ++ (if DEBUG
                 then [handler_console_log (Google_Response googleResponse)]
                 else []) in
      match convertGoogleToOpenAI googleResponse model
              {| trace := []; clock := clock0 |} with
      | (Throw e, w) => (done, clock w, Some e)
      | (Return openAIResponse, w) =>
          (done
             ++ [res_setHeader (lit "Content-Type") (lit "application/json");
                 res_status_json (response_status response) openAIResponse],
           clock w, None)
      end
  end.

(** Lines 83-125: the answer that is streamed. *)
Definition answer_stream (response : response) (model : value)
           (done : list effect) (clock0 : nat)
  : list effect * nat * option exn :=
  let w := handler_stream model (response_reads response)
             {| trace := []; clock := clock0 |} in
  (done ++ stream_headers ++ map in_stream (trace w), clock w, None).

(** The [try] block, lines 22-182: what was done, the clock, and what was
    thrown, if anything. *)
Definition handler_try (req : request) (clock0 : nat)
  : list effect * nat * option exn :=
  match req_authorization req with
  | None =>
      ([res_status_json 401 (plain_error (lit "Unauthorized"))], clock0, None)
  | Some authHeader =>
      if negb (startsWith authHeader (lit "Bearer ")) then
        ([res_status_json 401 (plain_error (lit "Unauthorized"))],
         clock0, None)
      else
        match nth_error (split_space authHeader) 1 with
        | None | Some [] =>
            ([res_status_json 401 (plain_error (lit "Invalid API key"))],
             clock0, None)
        | Some apiKey =>
            let openAIRequest := req_body req in
            match member openAIRequest (lit "stream") with
            | Throw e => ([], clock0, Some e)
            | Return stream =>
                let isStreamRequest :=
                  match stream with VBool true => true | _ => false end in
                match handler_model openAIRequest with
                | Throw e => ([], clock0, Some e)
                | Return model =>
                    let endpoint :=
                      if isStreamRequest then lit "streamGenerateContent"
                      else lit "generateContent" in
                    match ToString model with
                    | Throw e => ([], clock0, Some e)
                    | Return model_text =>
                        match convertOpenAIToGoogle openAIRequest with
                        | Throw e => ([], clock0, Some e)
                        | Return googleRequest =>
                            let call :=
                              {| call_url :=
                                   baseUrl ++ lit "/" ++ model_text
                                     ++ lit ":" ++ endpoint;
                                 call_key := apiKey;
                                 call_alt :=
                                   if isStreamRequest then Some (lit "sse")
                                   else None;
                                 call_body := googleRequest |} in
                            let done :=
                              (if DEBUG
                               then [handler_console_log
                                       (OpenAI_Request openAIRequest);
                                     handler_console_log
                                       (Google_Request googleRequest)]
                               else [])
                                ++ [fetch_call call] in
                            match fetch call with
                            | Throw e => (done, clock0, Some e)
                            | Return response =>
                                if negb (response_ok response) then
                                  upstream_failed response done clock0
                                else if isStreamRequest then
                                  answer_stream response model done clock0
                                else answer_whole response model done clock0
                            end
                        end
                    end
                end
            end
        end
  end.

(** [handler], lines 4-188. *)
Definition handler (req : request) (clock0 : nat) : list effect * nat :=
  if eqb (req_method req) (lit "OPTIONS") then
    (CORS_headers ++ [res_status_end 200], clock0)
  else if negb (eqb (req_method req) (lit "POST")) then
    (CORS_headers
       ++ [res_status_json 405 (plain_error (lit "Method not allowed"))],
     clock0)
  else
    let '(done, clock, thrown) := handler_try req clock0 in
    match thrown with
    | None => (CORS_headers ++ done, clock)
    | Some e =>
        (CORS_headers ++ done
           ++ [handler_console_error (Proxy_error e);
               res_status_json 500
                 (plain_error (lit "Internal server error"))],
         clock)
    end.

End Handler.

(** ** A concrete platform

    A [JSON.parse] for the JSON grammar of ECMAScript, a clock that ticks
    once a call, and the printing of integers and short decimal fractions.
    The general theorems do not depend on it; the examples, witnesses and
    counterexamples run on it. *)

Module Json.

Definition is_ws (c : code_unit) : bool :=
  ((c =? 9) || (c =? 10) || (c =? 13) || (c =? 32))%N.

Fixpoint skip_ws (s : jsstring) : jsstring :=
  match s with
  | c :: t => if is_ws c then skip_ws t else s
  | [] => []
  end.

Definition is_digit (c : code_unit) : bool := ((48 <=? c) && (c <=? 57))%N.

(** The leading digits of [s], most significant first, and the rest. *)
Fixpoint digits (s : jsstring) : list Z * jsstring :=
  match s with
  | c :: t =>
      if is_digit c then
        let (ds, r) := digits t in (Z.of_N (c - 48) :: ds, r)
      else ([], s)
  | [] => ([], [])
  end.

Definition to_Z (ds : list Z) : Z :=
  fold_left (fun acc d => 10 * acc + d) ds 0.

(** [m * 10^e] *)
Definition scale (m e : Z) : Q :=
  if 0 <=? e then inject_Z (m * 10 ^ e)
  else Qred (m # Z.to_pos (10 ^ (- e))).

(** [-? int frac? exp?] *)
Definition number (s : jsstring) : option (value * jsstring) :=
  let (negative, s) :=
    match s with
    | 45%N :: t => (true, t)
    | _ => (false, s)
    end in
  let (int, s) := digits s in
  match int with
  | [] => None
  | 0 :: _ :: _ => None
  | _ =>
      let frac :=
        match s with
        | 46%N :: t =>
            let (fs, r) := digits t in
            match fs with [] => None | _ => Some (fs, r) end
        | _ => Some ([], s)
        end in
      match frac with
      | None => None
      | Some (fs, s) =>
          let exp :=
            match s with
            | c :: t =>
                if ((c =? 101) || (c =? 69))%N then
                  let (minus, t) :=
                    match t with
                    | 45%N :: u => (true, u)
                    | 43%N :: u => (false, u)
                    | _ => (false, t)
                    end in
                  let (es, r) := digits t in
                  match es with
                  | [] => None
                  | _ => Some ((if minus then - to_Z es else to_Z es), r)
                  end
                else Some (0, s)
            | [] => Some (0, s)
            end in
          match exp with
          | None => None
          | Some (e, s) =>
              let m := to_Z (int ++ fs) in
              let m := if negative then - m else m in
              Some (VNumber (scale m (e - Z.of_nat (List.length fs))), s)
          end
      end
  end.

Definition hex (c : code_unit) : option N :=
  if is_digit c then Some (c - 48)%N
  else if ((97 <=? c) && (c <=? 102))%N then Some (c - 87)%N
  else if ((65 <=? c) && (c <=? 70))%N then Some (c - 55)%N
  else None.

(** The characters of a string after its opening quote. *)
Fixpoint chars (fuel : nat) (s : jsstring) : option (jsstring * jsstring) :=
  match fuel with
  | O => None
  | S fuel =>
      match s with
      | [] => None
      | 34%N :: t => Some ([], t)
      | 92%N :: e :: t =>
          let simple (c : code_unit) :=
            match chars fuel t with
            | Some (cs, r) => Some (c :: cs, r)
            | None => None
            end in
          if (e =? 34)%N then simple 34%N
          else if (e =? 92)%N then simple 92%N
          else if (e =? 47)%N then simple 47%N
          else if (e =? 98)%N then simple 8%N
          else if (e =? 102)%N then simple 12%N
          else if (e =? 110)%N then simple 10%N
          else if (e =? 114)%N then simple 13%N
          else if (e =? 116)%N then simple 9%N
          else if (e =? 117)%N then
            match t with
            | a :: b :: c :: d :: t' =>
                match hex a, hex b, hex c, hex d with
                | Some a, Some b, Some c, Some d =>
                    match chars fuel t' with
                    | Some (cs, r) =>
                        Some ((4096 * a + 256 * b + 16 * c + d)%N :: cs, r)
                    | None => None
                    end
                | _, _, _, _ => None
                end
            | _ => None
            end
          else None
      | c :: t =>
          if (c <? 32)%N || (c =? 92)%N then None
          else
            match chars fuel t with
            | Some (cs, r) => Some (c :: cs, r)
            | None => None
            end
      end
  end.

(** A later member of the same name replaces the earlier one. *)
Fixpoint set (props : list (jsstring * value)) (k : jsstring) (v : value)
  : list (jsstring * value) :=
  match props with
  | [] => [(k, v)]
  | (k', v') :: rest =>
      if eqb k k' then (k', v) :: rest else (k', v') :: set rest k v
  end.

Inductive goal :=
| a_value
| more_items (items : list value)
| more_members (props : list (jsstring * value)).

Fixpoint parse_at (fuel : nat) (g : goal) (s : jsstring)
  : option (value * jsstring) :=
  match fuel with
  | O => None
  | S fuel =>
      match g with
      | a_value =>
          match s with
          | 91%N :: t =>
              match skip_ws t with
              | 93%N :: r => Some (VArray [], r)
              | t' => parse_at fuel (more_items []) t'
              end
          | 123%N :: t =>
              match skip_ws t with
              | 125%N :: r => Some (VObject [], r)
              | t' => parse_at fuel (more_members []) t'
              end
          | 34%N :: t =>
              match chars (S (List.length t)) t with
              | Some (cs, r) => Some (VString cs, r)
              | None => None
              end
          | _ =>
              if startsWith s (lit "null") then Some (VNull, skipn 4 s)
              else if startsWith s (lit "true")
              then Some (VBool true, skipn 4 s)
              else if startsWith s (lit "false")
              then Some (VBool false, skipn 5 s)
              else number s
          end
      | more_items items =>
          match parse_at fuel a_value s with
          | Some (v, r) =>
              match skip_ws r with
              | 44%N :: r' =>
                  parse_at fuel (more_items (items ++ [v])) (skip_ws r')
              | 93%N :: r' => Some (VArray (items ++ [v]), r')
              | _ => None
              end
          | None => None
          end
      | more_members props =>
          match s with
          | 34%N :: t =>
              match chars (S (List.length t)) t with
              | Some (k, r) =>
                  match skip_ws r with
                  | 58%N :: r' =>
                      match parse_at fuel a_value (skip_ws r') with
                      | Some (v, r'') =>
                          match skip_ws r'' with
                          | 44%N :: u =>
                              parse_at fuel (more_members (set props k v))
                                (skip_ws u)
                          | 125%N :: u => Some (VObject (set props k v), u)
                          | _ => None
                          end
                      | None => None
                      end
                  | _ => None
                  end
              | None => None
              end
          | _ => None
          end
      end
  end.

(** [JSON.parse(text)] *)
Definition parse (text : jsstring) : option value :=
  match parse_at (2 * List.length text + 4) a_value (skip_ws text) with
  | Some (v, r) =>
      match skip_ws r with
      | [] => Some v
      | _ :: _ => None
      end
  | None => None
  end.

Fixpoint fraction (fuel : nat) (num : Z) (den : Z) : jsstring :=
  match fuel with
  | O => []
  | S fuel =>
      if num =? 0 then []
      else Z.to_N (48 + (10 * num) / den) :: fraction fuel ((10 * num) mod den) den
  end.

(** The digits of an integer, or of a decimal fraction of up to twenty
    places. *)
Definition number_toString (q : Q) : jsstring :=
  let q := Qred q in
  let n := Qnum q in
  let d := Z.pos (Qden q) in
  let whole := Z.abs n / d in
  let rest := Z.abs n mod d in
  (if n <? 0 then lit "-" else [])
    ++ of_Z whole
    ++ (if rest =? 0 then [] else lit "." ++ fraction 20 rest d).

End Json.

Definition node : Platform := {|
  DEBUG := false;
  Date_now n := 1700000000000 + Z.of_nat n;
  JSON_parse := Json.parse;
  Number_toString := Json.number_toString
|}.

(** The same platform with [DEBUG=true] in the environment. *)
Definition node_debug : Platform := {|
  DEBUG := true;
  Date_now n := 1700000000000 + Z.of_nat n;
  JSON_parse := Json.parse;
  Number_toString := Json.number_toString
|}.

(** ** What is observed of a trace *)

Definition is_write (e : event) : bool :=
  match e with
  | res_write_DONE | res_write_data _ => true
  | _ => false
  end.

(** The events written to the client, in order. *)
Definition written (tr : list event) : list event := filter is_write tr.

Definition is_DONE (e : event) : bool :=
  match e with
  | res_write_DONE => true
  | _ => false
  end.

(** How many termination events were written. *)
Definition count_DONE (tr : list event) : nat :=
  List.length (filter is_DONE tr).

(** The OutboundEventRecords written, in order. *)
Definition records (tr : list event) : list value :=
  flat_map (fun e => match e with res_write_data c => [c] | _ => [] end) tr.

(** The lines [processLine] was called with, in order. *)
Definition lines_passed (tr : list event) : list jsstring :=
  flat_map (fun e => match e with call_processLine l => [l] | _ => [] end) tr.

(** [chunk.choices[0].delta.content] of a record *)
Definition delta_content (chunk : value) : value :=
  opt_member
    (opt_member (opt_first (opt_member chunk (lit "choices"))) (lit "delta"))
    (lit "content").

(** ** Lines of a text, as the specification words them

    A text is a sequence of complete lines, each closed by a newline, and a
    remainder after the last newline. [lines_of cur text] reads [text] with
    [cur] as the line begun so far. *)

Fixpoint lines_of (cur text : jsstring) : list jsstring * jsstring :=
  match text with
  | [] => ([], cur)
  | c :: t =>
      if (c =? LF)%N then
        let (ls, r) := lines_of [] t in (cur :: ls, r)
      else lines_of (cur ++ [c]) t
  end.

Definition complete_lines (text : jsstring) : list jsstring :=
  fst (lines_of [] text).

Definition remainder (text : jsstring) : jsstring :=
  snd (lines_of [] text).

(** A line that is empty or holds white space only. *)
Definition blank (line : jsstring) : bool := negb (truthy (trim line)).

(** The lines of a text that are to reach the event translator: the complete
    lines that are not blank, then the remainder unless it is empty. *)
Definition lines_to_process (text : jsstring) : list jsstring :=
  filter (fun l => negb (blank l)) (complete_lines text)
    ++ (if truthy (remainder text) then [remainder text] else []).

(** The text the decoder makes of all the bytes of a stream. *)
Definition decoded (bytes : list byte) : jsstring :=
  fst (TextDecoder.decode TextDecoder.fresh bytes).

Definition DONE_line : jsstring := lit "data: [DONE]".

Section Derived.
Context `{Platform}.
Variable model : value.

(** [processLine] on each of [lines] in turn. *)
Definition process_lines (lines : list jsstring) (w : world) : world :=
  fold_left (fun w l => processLine model l w) lines w.

(** The variables of the stream after the loop has taken [chunks]. *)
Definition feed (chunks : list (list byte)) (st : stream) : stream :=
  fold_left (fun st value => on_value model value st) chunks st.

Definition opened (w : world) : stream :=
  {| buffer := []; decoder := TextDecoder.fresh; out := w |}.

(** The body of the inner loop on one complete line, lines 115-117. *)
Definition on_line (w : world) (line : jsstring) : world :=
  if truthy (trim line) then processLine model line w else w.

(** The world on entry of the [try] block of [processLine]. *)
Definition entered (line : jsstring) (w : world) : world :=
  let w := emit (call_processLine line) w in
  if DEBUG then emit (console_log (Processing_line line)) w else w.

(** The line is a [data: ] line, not the termination token, it parses, and
    [content] is the text read off its first candidate's first part. *)
Definition carries (line : jsstring) (content : value) : Prop :=
  startsWith line (lit "data: ") = true
  /\ eqb (slice_from line 6) (lit "[DONE]") = false
  /\ exists googleChunk,
       JSON_parse (slice_from line 6) = Some googleChunk
       /\ chunk_content googleChunk = Return content.

End Derived.

(** No newline among the units of [s]. *)
Definition no_LF (s : jsstring) : Prop := Forall (fun c => c <> LF) s.

(** ** Sample streams *)

(** The bytes of a literal in which ['] stands for the double quote and [|]
    for the newline. *)
Definition bytes (s : string) : list byte :=
  map (fun b => match b with x27 => x22 | x7c => x0a | _ => b end)
    (list_byte_of_string s).

(** The same, as the text the decoder makes of it. *)
Definition text (s : string) : jsstring := decoded (bytes s).

Definition gemini_pro : value := VString (lit "gemini-pro").

(** The backend sends its own termination line, then an event, then ends. *)
Definition sentinel_then_event : list (list byte) :=
  [bytes "data: [DONE]||";
   bytes "data: {'candidates':[{'content':{'parts':[{'text':'Hi'}]}}]}||"].

(** A content event, a line that does not parse, another content event. *)
Definition sandwich : list (list byte) :=
  [bytes "data: {'candidates':[{'content':{'parts':[{'text':'A'}]}}]}||da";
   bytes "ta: {'candidates':[{'content'||";
   bytes "data: {'candidates':[{'content':{'parts':[{'text':'B'}]}}]}||"].



(** A request that asks for temperature 0. *)
Definition zero_temperature_request : value :=
  VObject
    [(lit "messages",
       VArray [VObject [(lit "role", VString (lit "user"));
                        (lit "content", VString (lit "Hello"))]]);
     (lit "temperature", VNumber 0)].


Definition no_content_envelope : value :=
  VObject
    [(lit "error",
       VObject [(lit "message", VString (lit "No content generated"));
                (lit "type", VString (lit "invalid_response_error"))])].

(** One candidate, one part. *)
Definition hello_response : value :=
  VObject
    [(lit "candidates",
       VArray
         [VObject
            [(lit "content",
               VObject
                 [(lit "parts",
                    VArray [VObject [(lit "text", VString (lit "Hello"))]])])]])].

(** The backend answers [{"error":{"message":"bad key","code":400}}]. *)
Definition bad_key_response : value :=
  VObject
    [(lit "error",
       VObject [(lit "message", VString (lit "bad key"));
                (lit "code", VNumber 400)])].

(** ** Further observations *)

(** The record is one the streaming path may write for [model]: a single
    choice at index 0 with a truthy delta and a null [finish_reason]. *)
Definition record_ok (model r : value) : Prop :=
  ToBoolean (delta_content r) = true
  /\ opt_member r (lit "model") = model
  /\ opt_member r (lit "object") = VString (lit "chat.completion.chunk")
  /\ opt_member r (lit "choices")
     = VArray [VObject [(lit "index", VNumber 0);
                        (lit "delta",
                          VObject [(lit "content", delta_content r)]);
                        (lit "finish_reason", VNull)]].

Definition is_end (e : event) : bool :=
  match e with
  | res_end => true
  | _ => false
  end.

(** How many times the response was ended. *)
Definition count_end (tr : list event) : nat :=
  List.length (filter is_end tr).

(** The line begins with [data: ]. *)
Definition is_data (line : jsstring) : bool := startsWith line (lit "data: ").

(** The strings of [parts] with a newline between each two. *)
Definition newline_joined (parts : list jsstring) : jsstring :=
  List.concat (map (fun c => c ++ [LF]) (removelast parts)) ++ last parts [].

(** A message of a request. *)
Definition message (role content : jsstring) : value :=
  VObject [(lit "role", VString role); (lit "content", VString content)].

(** The request [convertOpenAIToGoogle] builds around a prompt and a
    temperature. *)
Definition google_request (prompt : jsstring) (temperature : value) : value :=
  VObject
    [(lit "contents",
       VArray [VObject
         [(lit "parts", VArray [VObject [(lit "text", VString prompt)]])]]);
     (lit "generationConfig", VObject [(lit "temperature", temperature)])].

(** A conversation of three messages. *)
Definition conversation : value :=
  VObject
    [(lit "messages",
       VArray [message (lit "system") (lit "Be brief.");
               message (lit "user") (lit "Hello");
               message (lit "assistant") (lit "Hi")]);
     (lit "temperature", VNumber (1 # 2))].

(** ** Observations of the decoder *)

(** How many newlines a text holds. *)
Definition count_LF (s : jsstring) : nat :=
  List.length (filter (N.eqb LF) s).

(** How many newline bytes there are among [bytes]. *)
Definition count_newline_bytes (bytes : list byte) : nat :=
  List.length (filter (fun b => N.eqb LF (Byte.to_N b)) bytes).

(** How many of the scalar values are the newline. *)
Definition newlines_among (items : list N) : nat :=
  List.length (filter (N.eqb LF) items).

(** The states the decoder can be in: between two characters, or within a
    sequence whose bytes so far leave no way to a code point below 64. *)
Definition sound (st : TextDecoder.state) : Prop :=
  (128 <= TextDecoder.lower_boundary st)%N
  /\ (TextDecoder.upper_boundary st <= 191)%N
  /\ (TextDecoder.bytes_needed st = 0%N
      \/ TextDecoder.code_point st <> 0%N
      \/ ((144 <= TextDecoder.lower_boundary st)%N
          /\ (TextDecoder.bytes_seen st + 1)%N
             <> TextDecoder.bytes_needed st)).

(** ** Observations of the handler *)

(** The effects that answer the request: after one of them nothing more can
    be sent. *)
Definition is_final (e : effect) : bool :=
  match e with
  | res_status_end _ | res_status_json _ _ | in_stream res_end => true
  | _ => false
  end.

(** The calls of [fetch] among the effects. *)
Definition calls (done : list effect) : list upstream_call :=
  flat_map (fun e => match e with fetch_call c => [c] | _ => [] end) done.

(** The events of the streaming path among the effects. *)
Definition streamed (done : list effect) : list event :=
  flat_map (fun e => match e with in_stream ev => [ev] | _ => [] end) done.

(** The units of [s] before its first space. *)
Fixpoint up_to_space (s : jsstring) : jsstring :=
  match s with
  | [] => []
  | c :: t => if (c =? 32)%N then [] else c :: up_to_space t
  end.

(** [openAIRequest.stream === true] *)
Definition is_stream_request (openAIRequest : value) : bool :=
  match opt_member openAIRequest (lit "stream") with
  | VBool true => true
  | _ => false
  end.

(** What the handler does with the outcome of its [try] block. *)
Definition conclude (outcome : list effect * nat * option exn)
  : list effect * nat :=
  let '(done, clock, thrown) := outcome in
  match thrown with
  | None => (CORS_headers ++ done, clock)
  | Some e =>
      (CORS_headers ++ done
         ++ [handler_console_error (Proxy_error e);
             res_status_json 500 (plain_error (lit "Internal server error"))],
       clock)
  end.

Section Accepted.
Context `{Platform}.

(** The request is one the handler takes to the backend, with [call] and
    for [model]: a POST with a key after [Bearer ], and a body from which
    the model, the address and the translated request are made without a
    throw. *)
Definition accepted (req : request) (call : upstream_call) (model : value)
  : Prop :=
  eqb (req_method req) (lit "POST") = true
  /\ (exists rest,
        req_authorization req = Some (lit "Bearer " ++ rest)
        /\ call_key call = up_to_space rest)
  /\ call_key call <> []
  /\ nullish (req_body req) = false
  /\ handler_model (req_body req) = Return model
  /\ (exists model_text,
        ToString model = Return model_text
        /\ call_url call
           = baseUrl ++ lit "/" ++ model_text ++ lit ":"
               ++ (if is_stream_request (req_body req)
                   then lit "streamGenerateContent"
                   else lit "generateContent"))
  /\ call_alt call
     = (if is_stream_request (req_body req) then Some (lit "sse") else None)
  /\ convertOpenAIToGoogle (req_body req) = Return (call_body call).

(** What is logged before the call, and the call. *)
Definition before_answer (req : request) (call : upstream_call)
  : list effect :=
  (if DEBUG
   then [handler_console_log (OpenAI_Request (req_body req));
         handler_console_log (Google_Request (call_body call))]
   else [])
    ++ [fetch_call call].

End Accepted.

Section Paths.
Context `{Platform}.
Variable fetch : upstream_call -> result response.

(** The request carries no key: no [authorization], one that does not begin
    with [Bearer ], or nothing between [Bearer ] and the next space. *)
Definition keyless (req : request) (answer : value) : Prop :=
  (req_authorization req = None
   /\ answer = plain_error (lit "Unauthorized"))
  \/ (exists authHeader,
        req_authorization req = Some authHeader
        /\ startsWith authHeader (lit "Bearer ") = false
        /\ answer = plain_error (lit "Unauthorized"))
  \/ (exists rest,
        req_authorization req = Some (lit "Bearer " ++ rest)
        /\ up_to_space rest = []
        /\ answer = plain_error (lit "Invalid API key")).

(** The paths through [handler]: each says what the request and the backend
    were like, and what the handler did. *)
Inductive path (req : request) (clock0 : nat) : list effect * nat -> Prop :=
| preflight :
    req_method req = lit "OPTIONS" ->
    path req clock0 (CORS_headers ++ [res_status_end 200], clock0)
| wrong_method :
    req_method req <> lit "OPTIONS" ->
    req_method req <> lit "POST" ->
    path req clock0
      (CORS_headers
         ++ [res_status_json 405 (plain_error (lit "Method not allowed"))],
       clock0)
| no_key answer :
    req_method req = lit "POST" ->
    keyless req answer ->
    path req clock0 (CORS_headers ++ [res_status_json 401 answer], clock0)
| bad_body e :
    req_method req = lit "POST" ->
    (forall call model, ~ accepted req call model) ->
    path req clock0 (conclude ([], clock0, Some e))
| no_answer call model e :
    accepted req call model ->
    fetch call = Throw e ->
    path req clock0 (conclude (before_answer req call, clock0, Some e))
| backend_failed call model response :
    accepted req call model ->
    fetch call = Return response ->
    response_ok response = false ->
    path req clock0
      (conclude (upstream_failed response (before_answer req call) clock0))
| streaming call model response :
    accepted req call model ->
    fetch call = Return response ->
    response_ok response = true ->
    is_stream_request (req_body req) = true ->
    path req clock0
      (conclude (answer_stream response model (before_answer req call) clock0))
| whole call model response :
    accepted req call model ->
    fetch call = Return response ->
    response_ok response = true ->
    is_stream_request (req_body req) = false ->
    path req clock0
      (conclude (answer_whole response model (before_answer req call) clock0)).

End Paths.

(** Effects that neither answer the request nor reach the backend nor
    belong to the stream: headers and console lines. *)
Definition quiet (e : effect) : bool :=
  match e with
  | res_setHeader _ _ | handler_console_log _ | handler_console_error _ => true
  | _ => false
  end.

(** The world in which the streaming path and the response translator start
    within the handler. *)
Definition at_clock (clock0 : nat) : world :=
  {| trace := []; clock := clock0 |}.

(** The envelope of line 74. *)
Definition upstream_error_envelope (message : value) (code : Z) : value :=
  VObject
    [(lit "error",
       VObject
         [(lit "message", message);
          (lit "type", VString (lit "google_api_error"));
          (lit "code", VNumber (inject_Z code))])].

(** ** Sample exchanges *)

(** A POST with a key, for [gemini-pro], streamed or not. *)
Definition chat_request (stream : bool) : request :=
  {| req_method := lit "POST";
     req_authorization := Some (lit "Bearer sk-test and more");
     req_body :=
       VObject
         [(lit "model", VString (lit "gemini-pro"));
          (lit "stream", VBool stream);
          (lit "messages", VArray [message (lit "user") (lit "Hello")])] |}.

(** The call it leads to. *)
Definition chat_call (stream : bool) : upstream_call :=
  {| call_url :=
       baseUrl ++ lit "/gemini-pro:"
         ++ (if stream then lit "streamGenerateContent"
             else lit "generateContent");
     call_key := lit "sk-test";
     call_alt := if stream then Some (lit "sse") else None;
     call_body := google_request (lit "Hello") (VNumber (7 # 10)) |}.

(** A backend that answers every call with [answer]. *)
Definition backend (answer : response) : upstream_call -> result response :=
  fun _ => Return answer.

(** The backend refuses the key. *)
Definition refusal : response :=
  {| response_ok := false;
     response_status := 400;
     response_json := Return bad_key_response;
     response_reads := [] |}.

(** The backend answers in one piece. *)
Definition whole_answer : response :=
  {| response_ok := true;
     response_status := 200;
     response_json := Return hello_response;
     response_reads := [] |}.

(** The backend streams one event. *)
Definition streamed_answer : response :=
  {| response_ok := true;
     response_status := 200;
     response_json := Throw SyntaxError;
     response_reads :=
       [chunk_of
          (bytes "data: {'candidates':[{'content':{'parts':[{'text':'Hi'}]}}]}||")] |}.

(** ** The platform with another [DEBUG] *)

Definition with_DEBUG (flag : bool) (P : Platform) : Platform :=
  {| DEBUG := flag;
     Date_now := @Date_now P;
     JSON_parse := @JSON_parse P;
     Number_toString := @Number_toString P |}.

Definition is_console_event (e : event) : bool :=
  match e with
  | console_log _ | console_error _ => true
  | _ => false
  end.

(** The events of the streaming path that are not lines on the console. *)
Definition off_console_events (tr : list event) : list event :=
  filter (fun e => negb (is_console_event e)) tr.

Definition is_console (e : effect) : bool :=
  match e with
  | handler_console_log _ | handler_console_error _ => true
  | in_stream ev => is_console_event ev
  | _ => false
  end.

(** The effects of the handler that are not lines on the console. *)
Definition off_console (done : list effect) : list effect :=
  filter (fun e => negb (is_console e)) done.

(** * Properties *)

(** ** Strings *)

Lemma eqb_spec (a b : jsstring) : eqb a b = true <-> a = b.
Proof.
  revert b. induction a as [|x a IH]; intros [|y b]; simpl;
    try (split; [discriminate | discriminate]); try tauto.
  rewrite andb_true_iff, N.eqb_eq, IH. split.
  - intros [-> ->]. reflexivity.
  - intros E. injection E as -> ->. tauto.
Qed.

Lemma eqb_refl (a : jsstring) : eqb a a = true.
Proof. apply eqb_spec. reflexivity. Qed.

Lemma startsWith_LF (c : code_unit) (t : jsstring) :
  startsWith (c :: t) [LF] = (LF =? c)%N.
Proof. destruct t; cbn [startsWith]; apply andb_true_r. Qed.

Lemma indexOf_from_no_LF (s : jsstring) (i : Z) :
  no_LF s -> indexOf_from s [LF] i = -1.
Proof.
  intros Hs. revert i. induction Hs as [|c t Hc _ IH]; intros i.
  - reflexivity.
  - cbn [indexOf_from]. rewrite startsWith_LF.
    destruct (N.eqb_spec LF c) as [E|_]; [congruence | apply IH].
Qed.

Lemma indexOf_from_LF (pre post : jsstring) (i : Z) :
  no_LF pre ->
  indexOf_from (pre ++ LF :: post) [LF] i = i + Z.of_nat (List.length pre).
Proof.
  intros Hp. revert i. induction Hp as [|c t Hc _ IH]; intros i.
  - cbn [app indexOf_from]. rewrite startsWith_LF, N.eqb_refl.
    simpl. lia.
  - cbn [app indexOf_from]. rewrite startsWith_LF.
    destruct (N.eqb_spec LF c) as [E|_]; [congruence |].
    rewrite IH. cbn [List.length]. lia.
Qed.

Lemma slice_prefix (pre post : jsstring) :
  slice (pre ++ post) 0 (Z.of_nat (List.length pre)) = pre.
Proof.
  unfold slice, relative, length. rewrite length_app.
  replace (0 <? 0) with false by reflexivity.
  destruct (Z.ltb_spec (Z.of_nat (List.length pre)) 0) as [?|_]; [lia |].
  rewrite Z.min_l, Z.min_l by lia.
  rewrite Z.sub_0_r, Nat2Z.id. simpl.
  rewrite firstn_app, firstn_all, Nat.sub_diag. simpl. apply app_nil_r.
Qed.

Lemma slice_from_suffix (pre post : jsstring) (c : code_unit) :
  slice_from (pre ++ c :: post) (Z.of_nat (List.length pre) + 1) = post.
Proof.
  unfold slice_from, slice, relative, length.
  rewrite length_app. cbn [List.length].
  destruct (Z.ltb_spec (Z.of_nat (List.length pre) + 1) 0) as [?|_]; [lia |].
  destruct (Z.ltb_spec (Z.of_nat (List.length pre + S (List.length post))) 0)
    as [?|_]; [lia |].
  rewrite Z.min_l, Z.min_l by lia.
  replace (Z.to_nat (Z.of_nat (List.length pre) + 1))
    with (List.length pre + 1)%nat by lia.
  rewrite skipn_app, skipn_all2 by lia.
  replace (List.length pre + 1 - List.length pre)%nat with 1%nat by lia.
  simpl. apply firstn_all2. lia.
Qed.

Lemma no_LF_app (a b : jsstring) : no_LF a -> no_LF b -> no_LF (a ++ b).
Proof. intros Ha Hb. apply Forall_app. split; assumption. Qed.

(** A string has no newline, or a first one. *)
Lemma first_LF (s : jsstring) :
  no_LF s \/ exists pre post, s = pre ++ LF :: post /\ no_LF pre.
Proof.
  induction s as [|c t [IH | (pre & post & -> & Hpre)]].
  - left. constructor.
  - destruct (N.eq_dec c LF) as [-> | Hc].
    + right. exists [], t. split; [reflexivity | constructor].
    + left. constructor; assumption.
  - destruct (N.eq_dec c LF) as [-> | Hc].
    + right. exists [], (pre ++ LF :: post). split; [reflexivity | constructor].
    + right. exists (c :: pre), post. split; [reflexivity |].
      constructor; assumption.
Qed.

(** ** The line loop *)

Section Loop.
Context `{Platform}.
Variable model : value.

Lemma take_lines_fuel_no_LF (fuel : nat) (s : jsstring) (w : world) :
  no_LF s -> take_lines_fuel model fuel s w = (s, w).
Proof.
  intros Hs. destruct fuel as [|fuel]; [reflexivity |].
  cbn [take_lines_fuel]. unfold indexOf.
  rewrite indexOf_from_no_LF by assumption. reflexivity.
Qed.

Lemma take_lines_fuel_LF (fuel : nat) (pre post : jsstring) (w : world) :
  no_LF pre ->
  take_lines_fuel model (S fuel) (pre ++ LF :: post) w
  = take_lines_fuel model fuel post (on_line model w pre).
Proof.
  intros Hpre. cbn [take_lines_fuel]. unfold indexOf.
  rewrite indexOf_from_LF by assumption. rewrite Z.add_0_l.
  destruct (Z.eqb_spec (Z.of_nat (List.length pre)) (-1)) as [?|_]; [lia |].
  rewrite slice_prefix, slice_from_suffix. reflexivity.
Qed.

(** The fuel is never used up: any two amounts above the length of the
    buffer give the same result. *)
Lemma take_lines_fuel_enough (fuel1 fuel2 : nat) (s : jsstring) (w : world) :
  (List.length s < fuel1)%nat -> (List.length s < fuel2)%nat ->
  take_lines_fuel model fuel1 s w = take_lines_fuel model fuel2 s w.
Proof.
  revert fuel2 s w.
  induction fuel1 as [|fuel1 IH]; intros fuel2 s w H1 H2; [lia |].
  destruct fuel2 as [|fuel2]; [lia |].
  destruct (first_LF s) as [Hs | (pre & post & -> & Hpre)].
  - rewrite !take_lines_fuel_no_LF by assumption. reflexivity.
  - rewrite !take_lines_fuel_LF by assumption.
    rewrite length_app in H1, H2. cbn [List.length] in H1, H2.
    apply IH; lia.
Qed.

(** The loop as the source writes it: without a newline it leaves the
    buffer; with one it takes the line before it and goes on with what
    follows. *)
Lemma take_lines_no_LF (s : jsstring) (w : world) :
  no_LF s -> take_lines model s w = (s, w).
Proof. apply take_lines_fuel_no_LF. Qed.

Lemma take_lines_LF (pre post : jsstring) (w : world) :
  no_LF pre ->
  take_lines model (pre ++ LF :: post) w
  = take_lines model post (on_line model w pre).
Proof.
  intros Hpre. unfold take_lines. rewrite take_lines_fuel_LF by assumption.
  apply take_lines_fuel_enough; rewrite ?length_app; cbn [List.length]; lia.
Qed.

Lemma take_lines_eq (buffer : jsstring) (w : world) :
  take_lines model buffer w
  = let newlineIndex := indexOf buffer [LF] in
    if newlineIndex =? -1 then (buffer, w)
    else
      take_lines model (slice_from buffer (newlineIndex + 1))
        (on_line model w (slice buffer 0 newlineIndex)).
Proof.
  destruct (first_LF buffer) as [Hs | (pre & post & -> & Hpre)]; cbv zeta.
  - rewrite take_lines_no_LF by assumption. unfold indexOf.
    rewrite indexOf_from_no_LF by assumption. reflexivity.
  - rewrite take_lines_LF by assumption. unfold indexOf.
    rewrite indexOf_from_LF by assumption. rewrite Z.add_0_l.
    destruct (Z.eqb_spec (Z.of_nat (List.length pre)) (-1)) as [?|_];
      [lia |].
    rewrite slice_prefix, slice_from_suffix. reflexivity.
Qed.

(** With [cur] begun and [text] arriving, the loop hands over the lines
    that [text] completes, and keeps the line left open. *)
Lemma take_lines_lines_of (text cur : jsstring) (w : world) :
  no_LF cur ->
  take_lines model (cur ++ text) w
  = (snd (lines_of cur text), fold_left (on_line model) (fst (lines_of cur text)) w).
Proof.
  revert cur w. induction text as [|c t IH]; intros cur w Hcur.
  - rewrite app_nil_r. apply take_lines_no_LF. assumption.
  - cbn [lines_of]. destruct (N.eqb_spec c LF) as [-> | Hc].
    + rewrite take_lines_LF by assumption.
      change t with ([] ++ t) at 1. rewrite IH by constructor.
      destruct (lines_of [] t) as [ls r]. reflexivity.
    + replace (cur ++ c :: t) with ((cur ++ [c]) ++ t)
        by (rewrite <- app_assoc; reflexivity).
      apply IH. apply no_LF_app; [assumption |].
      constructor; [assumption | constructor].
Qed.

End Loop.

(** ** Lines of a text *)

Lemma lines_of_app (a b cur : jsstring) :
  lines_of cur (a ++ b)
  = (fst (lines_of cur a) ++ fst (lines_of (snd (lines_of cur a)) b),
     snd (lines_of (snd (lines_of cur a)) b)).
Proof.
  revert cur. induction a as [|c t IH]; intros cur.
  - cbn [app lines_of fst snd]. destruct (lines_of cur b). reflexivity.
  - cbn [app lines_of]. destruct (c =? LF)%N.
    + rewrite IH. destruct (lines_of [] t) as [ls r]. reflexivity.
    + apply IH.
Qed.

Lemma lines_of_no_LF (text cur : jsstring) :
  no_LF cur ->
  Forall no_LF (fst (lines_of cur text)) /\ no_LF (snd (lines_of cur text)).
Proof.
  revert cur. induction text as [|c t IH]; intros cur Hcur.
  - split; [constructor | assumption].
  - cbn [lines_of]. destruct (N.eqb_spec c LF) as [-> | Hc].
    + destruct (IH [] (Forall_nil _)) as [Hl Hr].
      destruct (lines_of [] t) as [ls r]. split; [constructor |]; assumption.
    + apply IH. apply no_LF_app; [assumption |].
      constructor; [assumption | constructor].
Qed.


(** ** The decoder is indifferent to how the bytes are cut *)

Lemma decode_app (a b : list byte) (st : TextDecoder.state) :
  TextDecoder.decode st (a ++ b)
  = (fst (TextDecoder.decode st a)
       ++ fst (TextDecoder.decode (snd (TextDecoder.decode st a)) b),
     snd (TextDecoder.decode (snd (TextDecoder.decode st a)) b)).
Proof.
  revert st. induction a as [|x a IH]; intros st.
  - cbn [app TextDecoder.decode fst snd].
    destruct (TextDecoder.decode st b). reflexivity.
  - cbn [app TextDecoder.decode].
    destruct (TextDecoder.handler st (Byte.to_N x)) as [st1 items].
    destruct (TextDecoder.serialize st1 items) as [st2 text].
    rewrite IH. destruct (TextDecoder.decode st2 a) as [more st3].
    cbn [fst snd]. rewrite app_assoc. reflexivity.
Qed.

(** ** The read loop *)

Section ReadLoop.
Context `{Platform}.
Variable model : value.

Lemma on_value_lines_of (value : list byte) (st : stream) :
  no_LF (buffer st) ->
  let chunk := fst (TextDecoder.decode (decoder st) value) in
  on_value model value st
  = {| buffer := snd (lines_of (buffer st) chunk);
       decoder := snd (TextDecoder.decode (decoder st) value);
       out := fold_left (on_line model) (fst (lines_of (buffer st) chunk))
                (out st) |}.
Proof.
  intros Hb. unfold on_value.
  destruct (TextDecoder.decode (decoder st) value) as [chunk d].
  cbn [fst snd]. rewrite take_lines_lines_of by assumption. reflexivity.
Qed.

Lemma feed_cons (value : list byte) (chunks : list (list byte))
      (st : stream) :
  feed model (value :: chunks) st
  = feed model chunks (on_value model value st).
Proof. reflexivity. Qed.

(** After any chunks, the buffer is the line left open by the text so
    far, and the lines handed over are the ones that text completes. *)
Lemma feed_lines_of (chunks : list (list byte)) (st : stream) :
  no_LF (buffer st) ->
  let text := fst (TextDecoder.decode (decoder st) (List.concat chunks)) in
  feed model chunks st
  = {| buffer := snd (lines_of (buffer st) text);
       decoder := snd (TextDecoder.decode (decoder st) (List.concat chunks));
       out := fold_left (on_line model) (fst (lines_of (buffer st) text))
                (out st) |}.
Proof.
  revert st. induction chunks as [|value chunks IH]; intros st Hb.
  - destruct st. reflexivity.
  - rewrite feed_cons. cbn [List.concat].
    rewrite IH;
      rewrite on_value_lines_of by assumption; cbv zeta;
      [| apply lines_of_no_LF; assumption].
    cbn [buffer decoder out]. rewrite decode_app. cbn [fst snd].
    rewrite lines_of_app. cbn [fst snd]. rewrite fold_left_app.
    reflexivity.
Qed.

Lemma read_loop_chunks (chunks : list (list byte)) (st : stream) :
  read_loop model (map chunk_of chunks) st
  = (None, on_done model (feed model chunks st)).
Proof.
  revert st. induction chunks as [|value chunks IH]; intros st.
  - reflexivity.
  - cbn [map read_loop]. rewrite IH, feed_cons. reflexivity.
Qed.

Lemma read_loop_rejects (chunks : list (list byte)) (e : exn)
      (later : list read) (st : stream) :
  read_loop model (map chunk_of chunks ++ rejects e :: later) st
  = (Some e, out (feed model chunks st)).
Proof.
  revert st. induction chunks as [|value chunks IH]; intros st.
  - reflexivity.
  - cbn [map app read_loop]. rewrite IH, feed_cons. reflexivity.
Qed.

Lemma on_line_filter (lines : list jsstring) (w : world) :
  fold_left (on_line model) lines w
  = process_lines model (filter (fun l => negb (blank l)) lines) w.
Proof.
  revert w. induction lines as [|l lines IH]; intros w.
  - reflexivity.
  - cbn [fold_left filter]. unfold on_line at 2, blank.
    rewrite negb_involutive. destruct (truthy (trim l)).
    + cbn [process_lines fold_left]. apply IH.
    + apply IH.
Qed.

Lemma process_lines_app (a b : list jsstring) (w : world) :
  process_lines model (a ++ b) w
  = process_lines model b (process_lines model a w).
Proof. apply fold_left_app. Qed.

(** The streaming path, when no read fails: [processLine] on each line to
    process of the decoded text, the termination event, the end. *)
Lemma handler_stream_lines (chunks : list (list byte)) (w : world) :
  handler_stream model (map chunk_of chunks) w
  = emit res_end
      (emit res_write_DONE
         (process_lines model
            (lines_to_process (decoded (List.concat chunks))) w)).
Proof.
  unfold handler_stream. rewrite read_loop_chunks.
  fold (opened w). rewrite feed_lines_of by constructor.
  unfold on_done. cbn [buffer decoder out opened].
  unfold lines_to_process, complete_lines, remainder, decoded.
  rewrite process_lines_app, on_line_filter.
  destruct (truthy _); reflexivity.
Qed.

End ReadLoop.

(** ** Traces *)

Lemma trace_emit (e : event) (w : world) : trace (emit e w) = trace w ++ [e].
Proof. reflexivity. Qed.

Lemma clock_emit (e : event) (w : world) : clock (emit e w) = clock w.
Proof. reflexivity. Qed.

Lemma count_DONE_app (a b : list event) :
  count_DONE (a ++ b) = (count_DONE a + count_DONE b)%nat.
Proof. unfold count_DONE. rewrite filter_app. apply length_app. Qed.

Lemma written_app (a b : list event) :
  written (a ++ b) = written a ++ written b.
Proof. apply filter_app. Qed.

Lemma records_app (a b : list event) :
  records (a ++ b) = records a ++ records b.
Proof. apply flat_map_app. Qed.

Lemma lines_passed_app (a b : list event) :
  lines_passed (a ++ b) = lines_passed a ++ lines_passed b.
Proof. apply flat_map_app. Qed.

Ltac traces :=
  repeat (rewrite ?trace_emit, ?clock_emit, ?count_DONE_app, ?written_app,
           ?records_app, ?lines_passed_app, <- ?app_assoc);
  cbn [app].

(** ** Lines that begin with [data: ] *)

Lemma slice_from_skipn (s : jsstring) (k : nat) :
  slice_from s (Z.of_nat k) = skipn k s.
Proof.
  unfold slice_from, slice, relative, length.
  destruct (Z.ltb_spec (Z.of_nat k) 0) as [?|_]; [lia |].
  destruct (Z.ltb_spec (Z.of_nat (List.length s)) 0) as [?|_]; [lia |].
  rewrite (Z.min_l (Z.of_nat (List.length s))) by lia.
  destruct (Nat.le_gt_cases k (List.length s)) as [Hk | Hk].
  - rewrite Z.min_l by lia. rewrite Nat2Z.id.
    apply firstn_all2. rewrite length_skipn. lia.
  - rewrite Z.min_r by lia. rewrite Nat2Z.id, Z.sub_diag.
    rewrite !skipn_all2 by lia. reflexivity.
Qed.

Lemma startsWith_split (s p : jsstring) :
  startsWith s p = true -> s = p ++ skipn (List.length p) s.
Proof.
  revert s. induction p as [|a p IH]; intros s Hs.
  - destruct s; reflexivity.
  - destruct s as [|b s]; [discriminate |]. cbn [startsWith] in Hs.
    apply andb_true_iff in Hs. destruct Hs as [E Hs].
    apply N.eqb_eq in E. subst b. cbn [List.length skipn app].
    rewrite <- IH by assumption. reflexivity.
Qed.

Lemma data_line (line : jsstring) :
  startsWith line (lit "data: ") = true ->
  line = lit "data: " ++ slice_from line 6.
Proof.
  intros Hs. change 6 with (Z.of_nat 6). rewrite slice_from_skipn.
  apply (startsWith_split _ _ Hs).
Qed.

Lemma trimStart_keeps (s t : jsstring) (c : code_unit) :
  is_space c = false -> truthy (trimStart (s ++ c :: t)) = true.
Proof.
  intros Hc. induction s as [|x s IH]; cbn [app trimStart].
  - rewrite Hc. reflexivity.
  - destruct (is_space x); [assumption | reflexivity].
Qed.

Lemma truthy_rev (s : jsstring) : truthy (rev s) = truthy s.
Proof.
  destruct s as [|x s]; [reflexivity |]. cbn [rev truthy].
  destruct (rev s); reflexivity.
Qed.

Lemma trimStart_has (s t : jsstring) (c : code_unit) :
  is_space c = false ->
  exists u1 u2 d, trimStart (s ++ c :: t) = u1 ++ d :: u2 /\ is_space d = false.
Proof.
  intros Hc. induction s as [|x s IH]; cbn [app trimStart].
  - rewrite Hc. exists [], t, c. split; [reflexivity | assumption].
  - destruct (is_space x) eqn:Hx; [exact IH |].
    exists [], (s ++ c :: t), x. split; [reflexivity | assumption].
Qed.

(** A line with a unit that is not white space is not blank. *)
Lemma not_blank (s t : jsstring) (c : code_unit) :
  is_space c = false -> blank (s ++ c :: t) = false.
Proof.
  intros Hc. unfold blank, trim, trimEnd. rewrite truthy_rev.
  destruct (@trimStart_has s t c Hc) as (u1 & u2 & d & -> & Hd).
  rewrite rev_app_distr. cbn [rev]. rewrite <- app_assoc. cbn [app].
  rewrite (@trimStart_keeps _ _ d) by assumption. reflexivity.
Qed.

Lemma data_line_not_blank (line : jsstring) :
  startsWith line (lit "data: ") = true -> blank line = false.
Proof.
  intros Hs. rewrite (data_line _ Hs).
  apply (not_blank [] (lit "ata: " ++ slice_from line 6) 100%N).
  reflexivity.
Qed.

Lemma eqb_app_l (p a b : jsstring) : eqb (p ++ a) (p ++ b) = eqb a b.
Proof.
  induction p as [|x p IH]; [reflexivity |].
  cbn [app eqb]. rewrite N.eqb_refl. exact IH.
Qed.

Lemma DONE_line_iff (line : jsstring) :
  eqb line DONE_line
  = startsWith line (lit "data: ") && eqb (slice_from line 6) (lit "[DONE]").
Proof.
  destruct (startsWith line (lit "data: ")) eqn:Hs; cbn [andb].
  - rewrite (data_line _ Hs) at 1.
    change DONE_line with (lit "data: " ++ lit "[DONE]").
    apply eqb_app_l.
  - destruct (eqb line DONE_line) eqn:E; [| reflexivity].
    apply eqb_spec in E. subst line. discriminate.
Qed.

(** ** [processLine], case by case *)

Section ProcessLine.
Context `{Platform}.
Variable model : value.

Ltac branches :=
  unfold processLine, processLine_catch, Date_now_call, entered;
  repeat match goal with
         | |- context [if ?c then _ else _] => destruct c eqn:?
         | |- context [match ?x with _ => _ end] => destruct x eqn:?
         end;
  unfold emit; cbn [trace clock]; traces;
  cbn [lines_passed records written count_DONE flat_map filter is_DONE
         is_write List.length app];
  rewrite ?app_nil_r.

Lemma processLine_skipped (line : jsstring) (w : world) :
  blank line || negb (startsWith line (lit "data: ")) = true ->
  processLine model line w = emit (call_processLine line) w.
Proof. unfold processLine, blank. intros ->. reflexivity. Qed.

Lemma processLine_DONE (w : world) :
  processLine model DONE_line w
  = emit res_write_DONE (emit (call_processLine DONE_line) w).
Proof. reflexivity. Qed.

Lemma processLine_malformed (line : jsstring) (w : world) :
  startsWith line (lit "data: ") = true ->
  eqb (slice_from line 6) (lit "[DONE]") = false ->
  JSON_parse (slice_from line 6) = None ->
  processLine model line w
  = processLine_catch SyntaxError line (entered line w).
Proof.
  intros Hs Hd Hp. pose proof (data_line_not_blank _ Hs) as Hb.
  unfold blank in Hb. unfold processLine, entered.
  rewrite Hb, Hs, Hd, Hp. reflexivity.
Qed.

Lemma processLine_carries (line : jsstring) (content : value) (w : world) :
  carries line content ->
  processLine model line w
  = if ToBoolean content then
      emit (res_write_data
              (openAIChunk model (Date_now (clock w))
                 (Date_now (S (clock w))) content))
        {| trace := trace (entered line w); clock := S (S (clock w)) |}
    else entered line w.
Proof.
  intros (Hs & Hd & g & Hp & Hc).
  pose proof (data_line_not_blank _ Hs) as Hb.
  unfold blank in Hb. unfold processLine, entered.
  rewrite Hb, Hs, Hd, Hp, Hc. cbn [negb orb].
  destruct (ToBoolean content); [| reflexivity].
  unfold Date_now_call. destruct DEBUG; reflexivity.
Qed.


Lemma count_DONE_processLine (line : jsstring) (w : world) :
  count_DONE (trace (processLine model line w))
  = (count_DONE (trace w) + if eqb line DONE_line then 1 else 0)%nat.
Proof.
  rewrite DONE_line_iff. unfold processLine.
  destruct (truthy (trim line)) eqn:Hb; cbn [negb orb].
  - destruct (startsWith line (lit "data: ")); cbn [negb andb].
    + destruct (eqb (slice_from line 6) (lit "[DONE]")).
      * traces. cbn. lia.
      * branches; lia.
    + traces. cbn. lia.
  - destruct (startsWith line (lit "data: ")) eqn:Hs.
    + apply data_line_not_blank in Hs. unfold blank in Hs.
      rewrite Hb in Hs. discriminate.
    + traces. cbn. lia.
Qed.

Lemma process_lines_cons (l : jsstring) (lines : list jsstring)
      (w : world) :
  process_lines model (l :: lines) w
  = process_lines model lines (processLine model l w).
Proof. reflexivity. Qed.


Lemma count_DONE_process_lines (lines : list jsstring) (w : world) :
  count_DONE (trace (process_lines model lines w))
  = (count_DONE (trace w)
     + List.length (filter (fun l => eqb l DONE_line) lines))%nat.
Proof.
  revert w. induction lines as [|l lines IH]; intros w.
  - cbn. lia.
  - rewrite process_lines_cons, IH, count_DONE_processLine.
    cbn [filter].
    destruct (eqb l DONE_line); cbn [List.length]; lia.
Qed.

End ProcessLine.

(** ** The termination event *)

(** C1, as stated, fails: a backend that sends one [data: [DONE]] line and
    then ends has the termination event written twice, once by
    [processLine] for the line and once at end-of-input. *)
Lemma termination_written_twice :
  count_DONE
    (trace
       (handler_stream (H := node) gemini_pro
          [chunk_of (bytes "data: [DONE]||")] start))
  = 2%nat.
Proof. vm_compute. reflexivity. Qed.

(** C1, amended: when no read fails, the streaming path writes the
    termination event once at end-of-input and once more for every line of
    the backend that is exactly [data: [DONE]]; hence exactly once only when
    the backend sends no such line. *)
Theorem termination_events_counted
        (P : Platform) (model : value) (chunks : list (list byte))
        (w : world) :
  count_DONE (trace (handler_stream model (map chunk_of chunks) w))
  = (count_DONE (trace w)
     + List.length
         (filter (fun l => eqb l DONE_line)
            (lines_to_process (decoded (List.concat chunks))))
     + 1)%nat.
Proof.
  rewrite handler_stream_lines. traces.
  rewrite count_DONE_process_lines. cbn. lia.
Qed.

(** C2, as stated, fails: after the backend's termination line the loop
    goes on, and the event that follows it is translated and written. *)
Lemma event_after_sentinel_is_translated :
  map delta_content
    (records
       (trace
          (handler_stream (H := node) gemini_pro
             (map chunk_of sentinel_then_event) start)))
  = [VString (lit "Hi")]
  /\ map is_DONE
       (written
          (trace
             (handler_stream (H := node) gemini_pro
                (map chunk_of sentinel_then_event) start)))
     = [true; false; true].
Proof. split; vm_compute; reflexivity. Qed.

(** C2, amended: a [data: [DONE]] line in mid-stream has one termination
    event written and nothing else; the read loop does not exit, every later
    line is processed as any line is, and the termination event of
    end-of-input follows. *)
Theorem processing_continues_after_sentinel
        (P : Platform) (model : value) (chunks : list (list byte))
        (before after : list jsstring) (w : world) :
  lines_to_process (decoded (List.concat chunks))
  = before ++ DONE_line :: after ->
  handler_stream model (map chunk_of chunks) w
  = emit res_end
      (emit res_write_DONE
         (process_lines model after
            (emit res_write_DONE
               (emit (call_processLine DONE_line)
                  (process_lines model before w))))).
Proof.
  intros E. rewrite handler_stream_lines, E, process_lines_app.
  rewrite process_lines_cons, processLine_DONE. reflexivity.
Qed.

(** The amended C2 on the stream of [sentinel_then_event]. *)
Lemma processing_continues_after_sentinel_witness :
  lines_to_process (decoded (List.concat sentinel_then_event))
  = [] ++ DONE_line
       :: [text "data: {'candidates':[{'content':{'parts':[{'text':'Hi'}]}}]}"]
  /\ handler_stream (H := node) gemini_pro
       (map chunk_of sentinel_then_event) start
     = emit res_end
         (emit res_write_DONE
            (process_lines (H := node) gemini_pro
               [text "data: {'candidates':[{'content':{'parts':[{'text':'Hi'}]}}]}"]
               (emit res_write_DONE
                  (emit (call_processLine DONE_line)
                     (process_lines (H := node) gemini_pro [] start))))).
Proof.
  split.
  - vm_compute. reflexivity.
  - apply (@processing_continues_after_sentinel node).
    vm_compute. reflexivity.
Defined.

(** ** The stream reassembler *)



(** ** A read that fails *)

(** C10: when a read of the backend stream rejects, the response is ended
    with what had been written while the chunks before it were taken: the
    error is logged, nothing is written after it, the line left open in the
    buffer is not processed and no termination event is appended. *)
Theorem failed_read_ends_the_response
        (P : Platform) (model : value) (chunks : list (list byte))
        (e : exn) (later : list read) (w : world) :
  let taken := out (feed model chunks (opened w)) in
  handler_stream model (map chunk_of chunks ++ rejects e :: later) w
  = emit res_end (emit (console_error (Stream_processing_error e)) taken)
  /\ written
       (trace
          (handler_stream model (map chunk_of chunks ++ rejects e :: later) w))
     = written (trace taken)
  /\ taken
     = process_lines model
         (filter (fun l => negb (blank l))
            (complete_lines (decoded (List.concat chunks)))) w
  /\ count_DONE
       (trace
          (handler_stream model (map chunk_of chunks ++ rejects e :: later) w))
     = count_DONE (trace taken).
Proof.
  intros taken.
  assert (E : handler_stream model
                (map chunk_of chunks ++ rejects e :: later) w
              = emit res_end
                  (emit (console_error (Stream_processing_error e)) taken)).
  { unfold handler_stream. fold (opened w).
    rewrite read_loop_rejects. reflexivity. }
  repeat split.
  - exact E.
  - rewrite E. traces. cbn. rewrite app_nil_r. reflexivity.
  - unfold taken. rewrite feed_lines_of by constructor.
    cbn [out opened buffer decoder]. apply on_line_filter.
  - rewrite E. traces. cbn. lia.
Qed.

(** ** The event translator, streaming path *)

Section Events.
Context `{Platform}.
Variable model : value.

Lemma entered_records (line : jsstring) (w : world) :
  records (trace (entered line w)) = records (trace w)
  /\ written (trace (entered line w)) = written (trace w)
  /\ clock (entered line w) = clock w.
Proof.
  unfold entered. destruct DEBUG; traces; cbn; rewrite ?app_nil_r;
    repeat split; reflexivity.
Qed.

Lemma records_processLine_carries (line : jsstring) (content : value)
      (w : world) :
  carries line content ->
  records (trace (processLine model line w))
  = records (trace w)
      ++ (if ToBoolean content
          then [openAIChunk model (Date_now (clock w))
                  (Date_now (S (clock w))) content]
          else [])
  /\ clock (processLine model line w)
     = (clock w + if ToBoolean content then 2 else 0)%nat.
Proof.
  intros Hc. rewrite (@processLine_carries _ model line content w Hc).
  destruct (entered_records line w) as (Hr & _ & Hk).
  destruct (ToBoolean content).
  - traces. cbn [trace clock]. rewrite Hr. split; [reflexivity | lia].
  - rewrite Hr, Hk, app_nil_r. split; [reflexivity | lia].
Qed.

Lemma processLine_catch_records (e : exn) (line : jsstring) (w : world) :
  records (trace (processLine_catch e line w)) = records (trace w)
  /\ written (trace (processLine_catch e line w)) = written (trace w)
  /\ clock (processLine_catch e line w) = clock w.
Proof.
  unfold processLine_catch. destruct DEBUG; traces; cbn;
    rewrite ?app_nil_r; repeat split; reflexivity.
Qed.

End Events.

(** C4: a [data: ] line whose remainder, not the termination token, fails to
    parse is logged and skipped: [processLine] leaves the parse error on
    [console.error], writes nothing, and returns, so the loop goes on. In
    particular a stream whose lines are a content event, such a line and
    another content event has exactly the two records written, in order,
    and goes on to the termination event and the end of the response. *)
Theorem malformed_line_is_skipped
        (P : Platform) (model : value) (line : jsstring) (w : world) :
  startsWith line (lit "data: ") = true ->
  eqb (slice_from line 6) (lit "[DONE]") = false ->
  JSON_parse (slice_from line 6) = None ->
  trace (processLine model line w)
  = trace w
      ++ call_processLine line
      :: (if DEBUG then [console_log (Processing_line line)] else [])
      ++ console_error (Parse_error SyntaxError)
      :: (if DEBUG
          then [console_error (Parse_error_for_line line);
                console_error (Parse_error_details SyntaxError)]
          else [])
  /\ clock (processLine model line w) = clock w
  /\ written (trace (processLine model line w)) = written (trace w)
  /\ forall (chunks : list (list byte)) (a b : jsstring) (ta tb : value),
       carries a ta -> ToBoolean ta = true ->
       carries b tb -> ToBoolean tb = true ->
       lines_to_process (decoded (List.concat chunks)) = [a; line; b] ->
       map delta_content
         (records (trace (handler_stream model (map chunk_of chunks) start)))
       = [ta; tb]
       /\ exists tr,
            trace (handler_stream model (map chunk_of chunks) start)
            = tr ++ [res_write_DONE; res_end].
Proof.
  intros Hs Hd Hp.
  pose proof (@processLine_malformed P model line w Hs Hd Hp) as E.
  destruct (processLine_catch_records SyntaxError line (entered line w))
    as (Hr & Hw & Hk).
  destruct (entered_records line w) as (Hr' & Hw' & Hk').
  split; [| split; [| split]].
  - rewrite E. unfold processLine_catch, entered.
    destruct DEBUG; traces; reflexivity.
  - rewrite E, Hk. exact Hk'.
  - rewrite E, Hw. exact Hw'.
  - intros chunks a b ta tb Ha Hta Hb Htb Hl. split.
    + rewrite handler_stream_lines, Hl. traces.
      rewrite !process_lines_cons. cbn [process_lines fold_left].
      destruct (@records_processLine_carries P model b tb
                  (processLine model line (processLine model a start)) Hb)
        as (Rb & _).
      destruct (@records_processLine_carries P model a ta start Ha)
        as (Ra & _).
      destruct (@processLine_catch_records P SyntaxError line
                  (entered line (processLine model a start))) as (Rc & _).
      destruct (@entered_records P line (processLine model a start))
        as (Re & _).
      rewrite Rb.
      rewrite (@processLine_malformed P model line _ Hs Hd Hp).
      rewrite Rc, Re, Ra, Hta, Htb. reflexivity.
    + rewrite handler_stream_lines. traces. eexists. reflexivity.
Qed.

(** C4 on the stream of [sandwich], whose second line is cut short. *)
Lemma malformed_line_is_skipped_witness :
  startsWith (text "data: {'candidates':[{'content'") (lit "data: ") = true
  /\ eqb (slice_from (text "data: {'candidates':[{'content'") 6)
       (lit "[DONE]") = false
  /\ JSON_parse (Platform := node)
       (slice_from (text "data: {'candidates':[{'content'") 6) = None
  /\ written
       (trace
          (processLine (H := node) gemini_pro
             (text "data: {'candidates':[{'content'") start))
     = written (trace start)
  /\ map delta_content
       (records
          (trace
             (handler_stream (H := node) gemini_pro
                (map chunk_of sandwich) start)))
     = [VString (lit "A"); VString (lit "B")].
Proof.
  assert (Hs : startsWith (text "data: {'candidates':[{'content'")
                 (lit "data: ") = true) by (vm_compute; reflexivity).
  assert (Hd : eqb (slice_from (text "data: {'candidates':[{'content'") 6)
                 (lit "[DONE]") = false) by (vm_compute; reflexivity).
  assert (Hp : JSON_parse (Platform := node)
                 (slice_from (text "data: {'candidates':[{'content'") 6)
               = None) by (vm_compute; reflexivity).
  destruct (@malformed_line_is_skipped node gemini_pro _ start Hs Hd Hp)
    as (_ & _ & Hw & Hsand).
  split; [exact Hs |]. split; [exact Hd |]. split; [exact Hp |].
  split; [exact Hw |].
  refine (proj1
            (Hsand sandwich
               (text "data: {'candidates':[{'content':{'parts':[{'text':'A'}]}}]}")
               (text "data: {'candidates':[{'content':{'parts':[{'text':'B'}]}}]}")
               (VString (lit "A")) (VString (lit "B")) _ _ _ _ _)).
  - split; [vm_compute; reflexivity |].
    split; [vm_compute; reflexivity |].
    exists (VObject
              [(lit "candidates",
                 VArray [VObject
                   [(lit "content",
                      VObject
                        [(lit "parts",
                           VArray [VObject
                             [(lit "text", VString (lit "A"))]])])]])]).
    split; vm_compute; reflexivity.
  - reflexivity.
  - split; [vm_compute; reflexivity |].
    split; [vm_compute; reflexivity |].
    exists (VObject
              [(lit "candidates",
                 VArray [VObject
                   [(lit "content",
                      VObject
                        [(lit "parts",
                           VArray [VObject
                             [(lit "text", VString (lit "B"))]])])]])]).
    split; vm_compute; reflexivity.
  - reflexivity.
  - vm_compute. reflexivity.
Defined.





(** C9: an event of the stream whose text is present and is the empty
    string gives no record, as one whose text is absent does: [processLine]
    returns from the [try] block with nothing written and the clock not
    read. *)
Theorem empty_text_gives_no_record
        (P : Platform) (model : value) (line : jsstring) (content : value)
        (w : world) :
  carries line content ->
  content = VString [] \/ content = VUndefined ->
  processLine model line w = entered line w
  /\ records (trace (processLine model line w)) = records (trace w)
  /\ written (trace (processLine model line w)) = written (trace w)
  /\ clock (processLine model line w) = clock w.
Proof.
  intros Hc Hcontent.
  assert (E : processLine model line w = entered line w).
  { rewrite (@processLine_carries P model line content w Hc).
    destruct Hcontent as [-> | ->]; reflexivity. }
  rewrite E. split; [reflexivity |]. apply entered_records.
Qed.

(** C9 on an event whose text is the empty string. *)
Lemma empty_text_gives_no_record_witness :
  carries (H := node)
    (text "data: {'candidates':[{'content':{'parts':[{'text':''}]}}]}")
    (VString [])
  /\ (VString [] = VString [] \/ VString [] = VUndefined)
  /\ records
       (trace
          (processLine (H := node) gemini_pro
             (text "data: {'candidates':[{'content':{'parts':[{'text':''}]}}]}")
             start))
     = records (trace start).
Proof.
  assert (Hc : carries (H := node)
                 (text "data: {'candidates':[{'content':{'parts':[{'text':''}]}}]}")
                 (VString [])).
  { split; [vm_compute; reflexivity |].
    split; [vm_compute; reflexivity |].
    exists (VObject
              [(lit "candidates",
                 VArray [VObject
                   [(lit "content",
                      VObject
                        [(lit "parts",
                           VArray [VObject
                             [(lit "text", VString [])]])])]])]).
    split; vm_compute; reflexivity. }
  split; [exact Hc |]. split; [left; reflexivity |].
  apply (@empty_text_gives_no_record node gemini_pro _ (VString []) start Hc).
  left. reflexivity.
Defined.

(** ** The request translator *)

(** What [convertOpenAIToGoogle] makes of the temperature: [||] lets the
    request's value through when it is truthy and puts 0.7 otherwise. *)
Lemma temperature_of_request
      (P : Platform) (openAIRequest googleRequest : value) :
  convertOpenAIToGoogle openAIRequest = Return googleRequest ->
  exists temperature,
    member openAIRequest (lit "temperature") = Return temperature
    /\ opt_member (opt_member googleRequest (lit "generationConfig"))
         (lit "temperature")
       = or_else temperature (VNumber (7 # 10)).
Proof.
  unfold convertOpenAIToGoogle. intros E.
  destruct (member openAIRequest (lit "messages")) as [m|]; [| discriminate].
  cbn [bind] in E.
  destruct (match or_else m (VArray []) with
            | VArray items =>
                Array_map (fun msg => member msg (lit "content")) items
            | _ => Throw TypeError
            end) as [mapped|]; [| discriminate].
  cbn [bind] in E.
  destruct (join mapped [LF]) as [prompt|]; [| discriminate].
  cbn [bind] in E.
  destruct (member openAIRequest (lit "temperature")) as [t|];
    [| discriminate].
  cbn [bind] in E. injection E as <-. exists t. split; reflexivity.
Qed.

(** A temperature that is a number other than 0 goes through; an absent
    one becomes 0.7. *)
Lemma temperature_passes_unless_falsy
      (P : Platform) (openAIRequest googleRequest : value) :
  convertOpenAIToGoogle openAIRequest = Return googleRequest ->
  (forall q,
     member openAIRequest (lit "temperature") = Return (VNumber q) ->
     Qeq_bool q 0 = false ->
     opt_member (opt_member googleRequest (lit "generationConfig"))
       (lit "temperature") = VNumber q)
  /\ (member openAIRequest (lit "temperature") = Return VUndefined ->
      opt_member (opt_member googleRequest (lit "generationConfig"))
        (lit "temperature") = VNumber (7 # 10)).
Proof.
  intros E. destruct (temperature_of_request P _ E) as (t & Ht & ->).
  split.
  - intros q Hq Hz. rewrite Hq in Ht. injection Ht as <-.
    unfold or_else. cbn [ToBoolean]. rewrite Hz. reflexivity.
  - intros Hu. rewrite Hu in Ht. injection Ht as <-. reflexivity.
Qed.

(** C6, where the code departs from it: a request whose temperature is 0 is
    sent on with temperature 0.7. *)
Theorem zero_temperature_is_replaced (P : Platform) :
  member zero_temperature_request (lit "temperature") = Return (VNumber 0)
  /\ convertOpenAIToGoogle zero_temperature_request
     = Return
         (VObject
            [(lit "contents",
               VArray [VObject
                 [(lit "parts",
                    VArray [VObject [(lit "text", VString (lit "Hello"))]])]]);
             (lit "generationConfig",
               VObject [(lit "temperature", VNumber (7 # 10))])]).
Proof. split; reflexivity. Qed.

(** ** The response translator *)




(** C8: a response that carries an error object (any truthy [error]) is
    answered with an error envelope that has the error's message, the tag
    [invalid_request_error] and the error's code, and nothing else: no
    choices, no clock read. A response with no error, or a falsy one, and no
    content in its first candidate is answered with an envelope of another
    tag, [invalid_response_error]. *)
Theorem error_envelopes
        (P : Platform) (googleResponse model : value) (w : world) :
  (forall error,
     member googleResponse (lit "error") = Return error ->
     ToBoolean error = true ->
     exists envelope,
       convertGoogleToOpenAI googleResponse model w = (Return envelope, w)
       /\ envelope
          = VObject
              [(lit "error",
                 VObject
                   [(lit "message", opt_member error (lit "message"));
                    (lit "type", VString (lit "invalid_request_error"));
                    (lit "code", opt_member error (lit "code"))])]
       /\ opt_member envelope (lit "choices") = VUndefined)
  /\ (forall error,
        member googleResponse (lit "error") = Return error ->
        ToBoolean error = false ->
        ToBoolean
          (opt_member
             (opt_first (opt_member googleResponse (lit "candidates")))
             (lit "content")) = false ->
        convertGoogleToOpenAI googleResponse model w
        = (Return no_content_envelope, w)
        /\ opt_member no_content_envelope (lit "choices") = VUndefined)
  /\ lit "invalid_request_error" <> lit "invalid_response_error".
Proof.
  split; [| split].
  - intros error He Ht. eexists. unfold convertGoogleToOpenAI.
    rewrite He, Ht. repeat split; reflexivity.
  - intros error He Hf Hc. unfold convertGoogleToOpenAI.
    rewrite He, Hf, Hc. split; reflexivity.
  - discriminate.
Qed.

(** C8 on the response of scenario 4, and on a response without
    candidates. *)
Lemma error_envelopes_witness :
  member bad_key_response (lit "error")
  = Return (VObject [(lit "message", VString (lit "bad key"));
                     (lit "code", VNumber 400)])
  /\ ToBoolean
       (VObject [(lit "message", VString (lit "bad key"));
                 (lit "code", VNumber 400)]) = true
  /\ convertGoogleToOpenAI (H := node) bad_key_response gemini_pro start
     = (Return
          (VObject
             [(lit "error",
                VObject
                  [(lit "message", VString (lit "bad key"));
                   (lit "type", VString (lit "invalid_request_error"));
                   (lit "code", VNumber 400)])]), start)
  /\ member (VObject [(lit "candidates", VArray [])]) (lit "error")
     = Return VUndefined
  /\ convertGoogleToOpenAI (H := node)
       (VObject [(lit "candidates", VArray [])]) gemini_pro start
     = (Return no_content_envelope, start).
Proof.
  split; [reflexivity |]. split; [reflexivity |]. split.
  - destruct (@error_envelopes node bad_key_response gemini_pro start)
      as (Herr & _).
    destruct (Herr _ eq_refl eq_refl) as (envelope & E & -> & _). exact E.
  - split; [reflexivity |].
    destruct (@error_envelopes node (VObject [(lit "candidates", VArray [])])
                gemini_pro start) as (_ & Hnone & _).
    apply (Hnone VUndefined eq_refl eq_refl eq_refl).
Defined.

(** ** The scenarios of the specification, run on the concrete platform *)

(** Scenario 1: one event, then end-of-input without a termination line of
    the backend: one record with delta [Hi], then one termination event. *)
Example scenario_one_event :
  map delta_content
    (records
       (trace
          (handler_stream (H := node) gemini_pro
             [chunk_of
                (bytes "data: {'candidates':[{'content':{'parts':[{'text':'Hi'}]}}]}||")]
             start)))
  = [VString (lit "Hi")]
  /\ map is_DONE
       (written
          (trace
             (handler_stream (H := node) gemini_pro
                [chunk_of
                   (bytes "data: {'candidates':[{'content':{'parts':[{'text':'Hi'}]}}]}||")]
                start)))
     = [false; true].
Proof. split; vm_compute; reflexivity. Qed.

(** A character of three bytes cut between two chunks is decoded whole. *)
Example split_character_is_decoded :
  map delta_content
    (records
       (trace
          (handler_stream (H := node) gemini_pro
             [chunk_of
                (bytes "data: {'candidates':[{'content':{'parts':[{'text':'"
                   ++ [xe4; xbd]);
              chunk_of ([xa0] ++ bytes "'}]}}]}|")]
             start)))
  = [VString [20320%N]].
Proof. vm_compute. reflexivity. Qed.

(** Of a content with two parts, the text of the first is all that the
    completion holds. *)
Example only_the_first_part_is_taken :
  exists completion,
    fst (convertGoogleToOpenAI (H := node)
           (VObject
              [(lit "candidates",
                 VArray
                   [VObject
                      [(lit "content",
                         VObject
                           [(lit "parts",
                              VArray
                                [VObject [(lit "text", VString (lit "Hel"))];
                                 VObject [(lit "text", VString (lit "lo"))]])])]])])
           gemini_pro start)
    = Return completion
    /\ opt_member
         (opt_member (opt_first (opt_member completion (lit "choices")))
            (lit "message"))
         (lit "content")
       = VString (lit "Hel").
Proof. eexists. split; reflexivity. Qed.

(** With [DEBUG] set, a line that does not parse leaves the line and the
    error on the console, and nothing on the response. *)
Example malformed_line_under_DEBUG :
  trace (processLine (H := node_debug) gemini_pro (text "data: {oops") start)
  = [call_processLine (text "data: {oops");
     console_log (Processing_line (text "data: {oops"));
     console_error (Parse_error SyntaxError);
     console_error (Parse_error_for_line (text "data: {oops"));
     console_error (Parse_error_details SyntaxError)].
Proof. vm_compute. reflexivity. Qed.

(** A read that fails after one event: the record stays written, the error
    is logged, and the response ends without a termination event; the line
    begun in the buffer is dropped. *)
Example failed_read_after_one_event :
  map is_DONE
    (written
       (trace
          (handler_stream (H := node) gemini_pro
             [chunk_of
                (bytes "data: {'candidates':[{'content':{'parts':[{'text':'Hi'}]}}]}||da");
              rejects NetworkError;
              chunk_of (bytes "ta: [DONE]||")]
             start)))
  = [false]
  /\ lines_passed
       (trace
          (handler_stream (H := node) gemini_pro
             [chunk_of
                (bytes "data: {'candidates':[{'content':{'parts':[{'text':'Hi'}]}}]}||da");
              rejects NetworkError;
              chunk_of (bytes "ta: [DONE]||")]
             start))
     = [text "data: {'candidates':[{'content':{'parts':[{'text':'Hi'}]}}]}"].
Proof. split; vm_compute; reflexivity. Qed.

(** * Further properties of the code *)

(** ** What every line and every stream adds to the trace *)

Ltac by_cases_of_processLine :=
  unfold processLine, processLine_catch, Date_now_call;
  repeat match goal with
         | |- context [if ?c then _ else _] => destruct c eqn:?
         | |- context [match ?x with _ => _ end] => destruct x eqn:?
         end;
  unfold emit; cbn [trace clock]; rewrite <- ?app_assoc; cbn [app].

Lemma record_ok_openAIChunk
      (P : Platform) (model : value) (id_now created_now : Z)
      (content : value) :
  ToBoolean content = true ->
  record_ok model (openAIChunk model id_now created_now content).
Proof. intros Hc. repeat split; try reflexivity. exact Hc. Qed.

(** One call of [processLine] appends to the trace; it reads the clock twice
    for each record it writes, writes at most one, and never ends the
    response. *)
Lemma processLine_appends
      (P : Platform) (model : value) (line : jsstring) (w : world) :
  exists new,
    trace (processLine model line w) = trace w ++ new
    /\ clock (processLine model line w)
       = (clock w + 2 * List.length (records new))%nat
    /\ Forall (record_ok model) (records new)
    /\ count_end new = 0%nat.
Proof.
  by_cases_of_processLine;
    (eexists; split; [reflexivity |];
     cbn [records flat_map app List.length count_end filter is_end];
     split; [lia |]; split; [| reflexivity];
     repeat constructor; try (apply record_ok_openAIChunk; assumption)).
Qed.

Lemma process_lines_appends
      (P : Platform) (model : value) (lines : list jsstring) (w : world) :
  exists new,
    trace (process_lines model lines w) = trace w ++ new
    /\ clock (process_lines model lines w)
       = (clock w + 2 * List.length (records new))%nat
    /\ Forall (record_ok model) (records new)
    /\ count_end new = 0%nat.
Proof.
  revert w. induction lines as [|l lines IH]; intros w.
  - exists []. cbn. rewrite app_nil_r. repeat split; [lia | constructor].
  - rewrite process_lines_cons.
    destruct (processLine_appends P model l w) as (n1 & T1 & K1 & R1 & E1).
    destruct (IH (processLine model l w)) as (n2 & T2 & K2 & R2 & E2).
    exists (n1 ++ n2). rewrite T2, T1, K2, K1, <- app_assoc.
    rewrite records_app, length_app. unfold count_end in *.
    rewrite filter_app, length_app, E1, E2.
    repeat split; [lia | apply Forall_app; split; assumption].
Qed.

(** A sequence of reads is chunks up to the end of the stream, or chunks up
    to a first rejection. *)
Lemma reads_shape (reads : list read) :
  (exists chunks, reads = map chunk_of chunks)
  \/ (exists chunks e later,
        reads = map chunk_of chunks ++ rejects e :: later).
Proof.
  induction reads as [|r reads IH].
  - left. exists []. reflexivity.
  - destruct r as [value | e].
    + destruct IH as [(chunks & ->) | (chunks & e & later & ->)].
      * left. exists (value :: chunks). reflexivity.
      * right. exists (value :: chunks), e, later. reflexivity.
    + right. exists [], e, reads. reflexivity.
Qed.

Lemma feed_app
      (P : Platform) (model : value) (a b : list (list byte)) (st : stream) :
  feed model (a ++ b) st = feed model b (feed model a st).
Proof. apply fold_left_app. Qed.

Lemma feed_no_LF
      (P : Platform) (model : value) (chunks : list (list byte))
      (st : stream) :
  no_LF (buffer st) -> no_LF (buffer (feed model chunks st)).
Proof.
  intros Hb. rewrite feed_lines_of by assumption. cbn [buffer].
  apply lines_of_no_LF. assumption.
Qed.

(** Taking chunks only appends to the trace. *)
Lemma feed_appends
      (P : Platform) (model : value) (chunks : list (list byte))
      (st : stream) :
  no_LF (buffer st) ->
  exists new,
    trace (out (feed model chunks st)) = trace (out st) ++ new
    /\ clock (out (feed model chunks st))
       = (clock (out st) + 2 * List.length (records new))%nat
    /\ Forall (record_ok model) (records new)
    /\ count_end new = 0%nat.
Proof.
  intros Hb. rewrite feed_lines_of by assumption. cbn [out].
  rewrite on_line_filter. apply process_lines_appends.
Qed.

Lemma on_done_appends
      (P : Platform) (model : value) (st : stream) :
  exists new,
    trace (on_done model st) = trace (out st) ++ new ++ [res_write_DONE]
    /\ clock (on_done model st)
       = (clock (out st) + 2 * List.length (records new))%nat
    /\ Forall (record_ok model) (records new)
    /\ count_end new = 0%nat.
Proof.
  unfold on_done. destruct (truthy (buffer st)).
  - destruct (processLine_appends P model (buffer st) (out st))
      as (new & T & K & R & E).
    exists new. rewrite trace_emit, clock_emit, T, K, <- app_assoc.
    repeat split; assumption.
  - exists []. rewrite trace_emit, clock_emit. cbn.
    repeat split; [lia | constructor].
Qed.

(** The streaming path on any reads: it appends to the trace what the lines
    give, then the termination event or the logged failure, then the end of
    the response. *)
Lemma handler_stream_appends
      (P : Platform) (model : value) (reads : list read) (w : world) :
  exists new final,
    trace (handler_stream model reads w) = trace w ++ new ++ [final; res_end]
    /\ clock (handler_stream model reads w)
       = (clock w + 2 * List.length (records new))%nat
    /\ Forall (record_ok model) (records new)
    /\ count_end new = 0%nat
    /\ (final = res_write_DONE
        \/ exists e, final = console_error (Stream_processing_error e)).
Proof.
  unfold handler_stream. fold (opened w).
  destruct (reads_shape reads) as [(chunks & ->) | (chunks & e & later & ->)].
  - rewrite read_loop_chunks.
    destruct (feed_appends P model chunks (opened w) (Forall_nil _))
      as (n1 & T1 & K1 & R1 & E1).
    destruct (on_done_appends P model (feed model chunks (opened w)))
      as (n2 & T2 & K2 & R2 & E2).
    exists (n1 ++ n2), res_write_DONE.
    rewrite trace_emit, clock_emit, T2, K2, T1, K1. cbn [out opened].
    rewrite records_app, length_app. unfold count_end in *.
    rewrite filter_app, length_app, E1, E2, <- !app_assoc.
    repeat split; [lia | apply Forall_app; split; assumption | left; reflexivity].
  - rewrite read_loop_rejects.
    destruct (feed_appends P model chunks (opened w) (Forall_nil _))
      as (n1 & T1 & K1 & R1 & E1).
    exists n1, (console_error (Stream_processing_error e)).
    rewrite !trace_emit, !clock_emit, T1, K1. cbn [out opened].
    rewrite <- !app_assoc.
    repeat split; try assumption. right. exists e. reflexivity.
Qed.

(** ** Invariants of the streaming path *)

(** X1. Whatever the reads, [res.end()] is called exactly once, and it is
    the last thing the streaming path does. *)
Theorem response_is_ended_once
        (P : Platform) (model : value) (reads : list read) (w : world) :
  count_end (trace (handler_stream model reads w))
  = (count_end (trace w) + 1)%nat
  /\ exists before,
       trace (handler_stream model reads w) = before ++ [res_end].
Proof.
  destruct (handler_stream_appends P model reads w)
    as (new & final & T & _ & _ & E & Hf).
  rewrite T. split.
  - unfold count_end in *. rewrite !filter_app, !length_app, E.
    destruct Hf as [-> | (e & ->)]; cbn; lia.
  - exists (trace w ++ new ++ [final]).
    rewrite <- !app_assoc. reflexivity.
Qed.

(** X2. Whatever the reads, the clock is read exactly twice for every
    record written, and every record written has a truthy delta, the
    handler's model, and a single choice at index 0 whose [finish_reason]
    is null: an empty delta is never sent. *)
Theorem records_are_well_formed
        (P : Platform) (model : value) (reads : list read) (w : world) :
  exists new,
    records (trace (handler_stream model reads w))
    = records (trace w) ++ new
    /\ Forall (record_ok model) new
    /\ clock (handler_stream model reads w)
       = (clock w + 2 * List.length new)%nat.
Proof.
  destruct (handler_stream_appends P model reads w)
    as (new & final & T & K & R & _ & Hf).
  exists (records new). rewrite T, K, !records_app.
  repeat split; try assumption. f_equal.
  destruct Hf as [-> | (e & ->)]; cbn; apply app_nil_r.
Qed.

(** X3. What was done while some chunks were taken stays at the head of the
    trace whatever is read after them: more chunks, the end of the stream or
    a failure. Nothing sent is taken back or reordered. *)
Theorem trace_only_grows
        (P : Platform) (model : value) (chunks : list (list byte))
        (later : list read) (w : world) :
  exists more,
    trace (handler_stream model (map chunk_of chunks ++ later) w)
    = trace (out (feed model chunks (opened w))) ++ more.
Proof.
  assert (Hno : no_LF (buffer (feed model chunks (opened w))))
    by (apply feed_no_LF; constructor).
  unfold handler_stream. fold (opened w).
  destruct (reads_shape later) as [(cs & ->) | (cs & e & rest & ->)].
  - rewrite <- map_app, read_loop_chunks, feed_app.
    destruct (feed_appends P model cs _ Hno) as (n1 & T1 & _).
    destruct (on_done_appends P model
                (feed model cs (feed model chunks (opened w))))
      as (n2 & T2 & _).
    eexists. rewrite trace_emit, T2, T1, <- !app_assoc. reflexivity.
  - rewrite app_assoc, <- map_app, read_loop_rejects, feed_app.
    destruct (feed_appends P model cs _ Hno) as (n1 & T1 & _).
    eexists. rewrite !trace_emit, T1, <- !app_assoc. reflexivity.
Qed.

(** ** Lines that are not [data: ] lines *)

(** What a line has written and how far it moves the clock depend on the
    line and the clock, not on the trace so far. *)
Lemma processLine_written_alike
      (P : Platform) (model : value) (line : jsstring) (w w' : world) :
  clock w = clock w' ->
  exists new,
    written (trace (processLine model line w)) = written (trace w) ++ new
    /\ written (trace (processLine model line w'))
       = written (trace w') ++ new
    /\ clock (processLine model line w) = clock (processLine model line w').
Proof.
  intros Hk. unfold processLine, processLine_catch, Date_now_call.
  repeat match goal with
         | |- context [if ?c then _ else _] => destruct c eqn:?
         | |- context [match ?x with _ => _ end] => destruct x eqn:?
         end;
    unfold emit; cbn [trace clock]; rewrite <- ?Hk;
    rewrite ?written_app; cbn [written filter is_write];
    rewrite ?app_nil_r;
    (eexists; split; [| split]; [| | reflexivity];
     [rewrite <- (app_nil_r (written (trace w))) at 1 | ];
     try reflexivity).
  all: try (rewrite app_nil_r; reflexivity).
Qed.

Lemma processLine_not_data
      (P : Platform) (model : value) (line : jsstring) (w : world) :
  is_data line = false ->
  written (trace (processLine model line w)) = written (trace w)
  /\ clock (processLine model line w) = clock w.
Proof.
  intros Hd. unfold is_data in Hd.
  rewrite processLine_skipped by (rewrite Hd; apply orb_true_r).
  rewrite trace_emit, written_app. cbn. rewrite app_nil_r.
  split; reflexivity.
Qed.

Lemma process_lines_data_only
      (P : Platform) (model : value) (lines : list jsstring) (w w' : world) :
  clock w = clock w' ->
  written (trace w) = written (trace w') ->
  written (trace (process_lines model lines w))
  = written (trace (process_lines model (filter is_data lines) w'))
  /\ clock (process_lines model lines w)
     = clock (process_lines model (filter is_data lines) w').
Proof.
  revert w w'. induction lines as [|l lines IH]; intros w w' Hk Hw.
  - split; assumption.
  - rewrite process_lines_cons. cbn [filter].
    destruct (is_data l) eqn:Hd.
    + rewrite process_lines_cons.
      destruct (processLine_written_alike P model l w w' Hk)
        as (new & W1 & W2 & K).
      apply IH; [exact K |]. rewrite W1, W2, Hw. reflexivity.
    + destruct (processLine_not_data P model l w Hd) as (W & K).
      apply IH; congruence.
Qed.

(** X4. Only the lines that begin with [data: ] count: comment lines,
    keep-alives, [event:] and [id:] fields and the like leave what the
    client is sent, and the ids of the records, as they would be without
    them. *)
Theorem only_data_lines_are_translated
        (P : Platform) (model : value) (chunks : list (list byte))
        (w : world) :
  written (trace (handler_stream model (map chunk_of chunks) w))
  = written
      (trace
         (process_lines model
            (filter is_data (lines_to_process (decoded (List.concat chunks))))
            w))
      ++ [res_write_DONE].
Proof.
  rewrite handler_stream_lines, !trace_emit, !written_app. cbn.
  rewrite app_nil_r. f_equal.
  apply (process_lines_data_only P model _ w w); reflexivity.
Qed.

(** ** The model name *)




(** ** The response translator, all cases *)

(** X6. [convertGoogleToOpenAI] throws on a [null] or [undefined] response
    and on no other. What it returns is either an error envelope, with an
    [error] and no [choices], the clock not read; or a completion, with one
    choice and no [error], the clock read twice. Never both, never
    neither. *)
Theorem envelope_or_completion
        (P : Platform) (googleResponse model : value) (w : world) :
  (nullish googleResponse = true ->
   convertGoogleToOpenAI googleResponse model w = (Throw TypeError, w))
  /\ (nullish googleResponse = false ->
      exists answer w',
        convertGoogleToOpenAI googleResponse model w = (Return answer, w')
        /\ trace w' = trace w
        /\ ((ToBoolean (opt_member answer (lit "error")) = true
             /\ opt_member answer (lit "choices") = VUndefined
             /\ clock w' = clock w)
            \/ (opt_member answer (lit "error") = VUndefined
                /\ (exists choice,
                      opt_member answer (lit "choices") = VArray [choice])
                /\ clock w' = S (S (clock w))))).
Proof.
  split.
  - destruct googleResponse; try discriminate; reflexivity.
  - intros Hn. unfold convertGoogleToOpenAI.
    assert (Hm : exists error,
               member googleResponse (lit "error") = Return error).
    { destruct googleResponse; try discriminate; eexists; reflexivity. }
    destruct Hm as (error & ->).
    destruct (ToBoolean error).
    + eexists. exists w. split; [reflexivity |]. split; [reflexivity |].
      left. repeat split; reflexivity.
    + destruct (ToBoolean _).
      * unfold Date_now_call. cbn [negb trace clock].
        eexists. eexists. split; [reflexivity |]. split; [reflexivity |].
        right. split; [reflexivity |]. split; [| reflexivity].
        eexists. reflexivity.
      * cbn [negb]. eexists. exists w. split; [reflexivity |].
        split; [reflexivity |]. left. repeat split; reflexivity.
Qed.

(** X6 on [null] and on the response of scenario 3. *)
Lemma envelope_or_completion_witness :
  nullish VNull = true
  /\ convertGoogleToOpenAI (H := node) VNull gemini_pro start
     = (Throw TypeError, start)
  /\ nullish hello_response = false
  /\ exists answer w',
       convertGoogleToOpenAI (H := node) hello_response gemini_pro start
       = (Return answer, w')
       /\ clock w' = 2%nat.
Proof.
  destruct (@envelope_or_completion node VNull gemini_pro start)
    as (Hnull & _).
  destruct (@envelope_or_completion node hello_response gemini_pro start)
    as (_ & Hsome).
  split; [reflexivity |]. split; [exact (Hnull eq_refl) |].
  split; [reflexivity |].
  destruct (Hsome eq_refl) as (answer & w' & E & _ & _).
  exists answer, w'. split; [exact E |].
  cbv in E. injection E as _ <-. reflexivity.
Defined.

(** ** The prompt *)

Lemma member_of_value (v : value) (name : jsstring) :
  nullish v = false -> member v name = Return (opt_member v name).
Proof. destruct v; try discriminate; reflexivity. Qed.

Lemma member_returns (v r : value) (name : jsstring) :
  member v name = Return r -> nullish v = false.
Proof. destruct v; try discriminate; reflexivity. Qed.

Lemma newline_joined_cons (c c' : jsstring) (rest : list jsstring) :
  newline_joined (c :: c' :: rest) = c ++ [LF] ++ newline_joined (c' :: rest).
Proof.
  unfold newline_joined. cbn [removelast map List.concat last].
  rewrite <- !app_assoc. reflexivity.
Qed.

Lemma join_of_strings (P : Platform) (contents : list jsstring) :
  join (map VString contents) [LF] = Return (newline_joined contents).
Proof.
  induction contents as [|c [|c' rest] IH].
  - reflexivity.
  - reflexivity.
  - rewrite newline_joined_cons. cbn [map join nullish bind ToString] in *.
    rewrite IH. reflexivity.
Qed.

Lemma contents_of_messages
      (P : Platform) (items : list value) (contents : list jsstring) :
  Forall2 (fun item c =>
             nullish item = false
             /\ opt_member item (lit "content") = VString c) items contents ->
  Array_map (fun msg => member msg (lit "content")) items
  = Return (map VString contents).
Proof.
  induction 1 as [|item c items contents [Hn Hc] _ IH].
  - reflexivity.
  - cbn [Array_map map]. rewrite (@member_of_value item (lit "content") Hn), Hc, IH.
    reflexivity.
Qed.

(** X7. For a request whose messages all have a string content, the prompt
    sent to the backend is the contents in order with a newline between each
    two, and nothing else of the messages: roles play no part, and no
    messages give the empty prompt. The temperature is the request's unless
    that is falsy. *)
Theorem prompt_is_the_contents_joined
        (P : Platform) (openAIRequest : value) (items : list value)
        (contents : list jsstring) :
  member openAIRequest (lit "messages") = Return (VArray items) ->
  Forall2 (fun item c =>
             nullish item = false
             /\ opt_member item (lit "content") = VString c) items contents ->
  convertOpenAIToGoogle openAIRequest
  = Return
      (google_request (newline_joined contents)
         (or_else (opt_member openAIRequest (lit "temperature"))
            (VNumber (7 # 10)))).
Proof.
  intros Hm Hc. unfold convertOpenAIToGoogle.
  rewrite (@member_of_value openAIRequest (lit "temperature")
             (@member_returns openAIRequest _ (lit "messages") Hm)).
  rewrite Hm. cbn [bind or_else ToBoolean].
  rewrite (@contents_of_messages P items contents Hc). cbn [bind].
  rewrite join_of_strings. reflexivity.
Qed.

(** X7 on a conversation of three messages. *)
Lemma prompt_is_the_contents_joined_witness :
  member conversation (lit "messages")
  = Return (VArray [message (lit "system") (lit "Be brief.");
                    message (lit "user") (lit "Hello");
                    message (lit "assistant") (lit "Hi")])
  /\ convertOpenAIToGoogle (H := node) conversation
     = Return
         (google_request (lit "Be brief." ++ [LF] ++ lit "Hello" ++ [LF] ++ lit "Hi")
            (VNumber (1 # 2))).
Proof.
  split; [reflexivity |].
  apply (@prompt_is_the_contents_joined node conversation
           [message (lit "system") (lit "Be brief.");
            message (lit "user") (lit "Hello");
            message (lit "assistant") (lit "Hi")]
           [lit "Be brief."; lit "Hello"; lit "Hi"]).
  - reflexivity.
  - repeat constructor.
Defined.

Lemma Array_map_null (P : Platform) (items : list value) (x : value) :
  In x items -> nullish x = true ->
  Array_map (fun msg => member msg (lit "content")) items = Throw TypeError.
Proof.
  intros Hin Hx. induction items as [|item items IH]; [contradiction |].
  cbn [Array_map]. destruct (nullish item) eqn:Hn.
  - destruct item; try discriminate; reflexivity.
  - rewrite (@member_of_value item (lit "content") Hn). cbn [bind].
    destruct Hin as [-> | Hin]; [congruence |].
    rewrite (IH Hin). reflexivity.
Qed.

(** X8. The edges of [convertOpenAIToGoogle]. A request whose [messages] is
    absent, [null] or otherwise falsy is translated, with the empty prompt.
    One whose [messages] is truthy and not an array (a string, a number, an
    object), or is an array with a [null] in it, makes the translator throw
    a [TypeError]; so does a request that is itself [null] or
    [undefined]. *)
Theorem edges_of_the_request_translator
        (P : Platform) (openAIRequest : value) :
  (nullish openAIRequest = true ->
   convertOpenAIToGoogle openAIRequest = Throw TypeError)
  /\ (forall messages,
        member openAIRequest (lit "messages") = Return messages ->
        (ToBoolean messages = false ->
         convertOpenAIToGoogle openAIRequest
         = Return
             (google_request []
                (or_else (opt_member openAIRequest (lit "temperature"))
                   (VNumber (7 # 10)))))
        /\ (ToBoolean messages = true ->
            (forall items, messages <> VArray items) ->
            convertOpenAIToGoogle openAIRequest = Throw TypeError)
        /\ (forall items x,
              messages = VArray items -> In x items -> nullish x = true ->
              convertOpenAIToGoogle openAIRequest = Throw TypeError)).
Proof.
  split.
  - destruct openAIRequest; try discriminate; reflexivity.
  - intros messages Hm. unfold convertOpenAIToGoogle.
    rewrite (@member_of_value openAIRequest (lit "temperature")
             (@member_returns openAIRequest _ (lit "messages") Hm)).
    rewrite Hm. cbn [bind].
    change (or_else messages (VArray []))
      with (if ToBoolean messages then messages else VArray []).
    split; [| split].
    + intros ->. reflexivity.
    + intros -> Hna. destruct messages; try reflexivity.
      exfalso. apply (Hna items). reflexivity.
    + intros items x -> Hin Hx. cbn [ToBoolean].
      rewrite (@Array_map_null P items x Hin Hx). reflexivity.
Qed.

(** X8 on a request without messages, one whose messages is a string, and
    one with a [null] among its messages. *)
Lemma edges_of_the_request_translator_witness :
  convertOpenAIToGoogle (H := node) (VObject [])
  = Return (google_request [] (VNumber (7 # 10)))
  /\ convertOpenAIToGoogle (H := node)
       (VObject [(lit "messages", VString (lit "Hello"))])
     = Throw TypeError
  /\ convertOpenAIToGoogle (H := node)
       (VObject [(lit "messages",
                   VArray [message (lit "user") (lit "Hello"); VNull])])
     = Throw TypeError.
Proof.
  split; [| split].
  - apply (proj2 (@edges_of_the_request_translator node (VObject []))
             VUndefined eq_refl).
    reflexivity.
  - apply (proj2 (@edges_of_the_request_translator node
                    (VObject [(lit "messages", VString (lit "Hello"))]))
             (VString (lit "Hello")) eq_refl).
    + reflexivity.
    + discriminate.
  - apply (proj2 (proj2 (proj2 (@edges_of_the_request_translator node
                    (VObject [(lit "messages",
                                VArray [message (lit "user") (lit "Hello");
                                        VNull])]))
             _ eq_refl)) _ VNull eq_refl).
    + right. left. reflexivity.
    + reflexivity.
Defined.

(** ** The handler: the key *)

Lemma split_space_first (s cur : jsstring) :
  nth_error (split_space_from cur s) 0 = Some (cur ++ up_to_space s).
Proof.
  revert cur. induction s as [|c t IH]; intros cur; cbn [split_space_from up_to_space].
  - rewrite app_nil_r. reflexivity.
  - destruct (c =? 32)%N.
    + rewrite app_nil_r. reflexivity.
    + rewrite IH, <- app_assoc. reflexivity.
Qed.


(** The key is what follows [Bearer ] up to the next space. *)
Lemma key_of_Bearer (rest : jsstring) :
  nth_error (split_space (lit "Bearer " ++ rest)) 1
  = Some (up_to_space rest).
Proof.
  change (split_space (lit "Bearer " ++ rest))
    with (lit "Bearer" :: split_space_from [] rest).
  cbn [nth_error]. apply (split_space_first rest []).
Qed.

Lemma startsWith_prefix (p t : jsstring) : startsWith (p ++ t) p = true.
Proof.
  induction p as [|a p IH]; [destruct t; reflexivity |].
  cbn [app startsWith]. rewrite N.eqb_refl. assumption.
Qed.

Lemma Bearer_split (authHeader : jsstring) :
  startsWith authHeader (lit "Bearer ") = true ->
  authHeader = lit "Bearer " ++ skipn 7 authHeader.
Proof. intros Hs. apply (startsWith_split _ _ Hs). Qed.

(** ** The handler: its paths *)

Section HandlerPaths.
Context `{Platform}.
Variable fetch : upstream_call -> result response.

Lemma handler_POST (req : request) (clock0 : nat) :
  req_method req = lit "POST" ->
  handler fetch req clock0 = conclude (handler_try fetch req clock0).
Proof.
  intros Hm. unfold handler, conclude. rewrite Hm.
  change (eqb (lit "POST") (lit "OPTIONS")) with false.
  change (eqb (lit "POST") (lit "POST")) with true. cbn [negb].
  destruct (handler_try fetch req clock0) as [[done clock] thrown].
  reflexivity.
Qed.

Lemma is_stream_request_member (openAIRequest stream : value) :
  member openAIRequest (lit "stream") = Return stream ->
  is_stream_request openAIRequest
  = match stream with VBool true => true | _ => false end.
Proof.
  unfold is_stream_request.
  destruct openAIRequest; try discriminate; intros E; injection E as <-;
    reflexivity.
Qed.

(** Two accepted calls of one request are the same call, for the same
    model. *)
Lemma accepted_unique (req : request) (c1 c2 : upstream_call)
      (m1 m2 : value) :
  accepted req c1 m1 -> accepted req c2 m2 -> c1 = c2 /\ m1 = m2.
Proof.
  intros (_ & (r1 & A1 & K1) & _ & _ & M1 & (t1 & T1 & U1) & L1 & B1)
         (_ & (r2 & A2 & K2) & _ & _ & M2 & (t2 & T2 & U2) & L2 & B2).
  rewrite M1 in M2. injection M2 as <-.
  rewrite T1 in T2. injection T2 as <-.
  rewrite A1 in A2. injection A2 as E. subst r2.
  rewrite B1 in B2. injection B2 as B.
  destruct c1, c2. cbn in *. subst. split; reflexivity.
Qed.

(** The [try] block on a request with a key. *)
Lemma handler_try_with_key (req : request) (clock0 : nat) (rest : jsstring) :
  req_authorization req = Some (lit "Bearer " ++ rest) ->
  up_to_space rest <> [] ->
  (exists e,
     handler_try fetch req clock0 = ([], clock0, Some e)
     /\ forall call model,
          ~ (nullish (req_body req) = false
             /\ handler_model (req_body req) = Return model
             /\ (exists model_text, ToString model = Return model_text)
             /\ convertOpenAIToGoogle (req_body req)
                = Return (call_body call)))
  \/ (exists call model,
        (exists rest',
           req_authorization req = Some (lit "Bearer " ++ rest')
           /\ call_key call = up_to_space rest')
        /\ call_key call <> []
        /\ nullish (req_body req) = false
        /\ handler_model (req_body req) = Return model
        /\ (exists model_text,
              ToString model = Return model_text
              /\ call_url call
                 = baseUrl ++ lit "/" ++ model_text ++ lit ":"
                     ++ (if is_stream_request (req_body req)
                         then lit "streamGenerateContent"
                         else lit "generateContent"))
        /\ call_alt call
           = (if is_stream_request (req_body req)
              then Some (lit "sse") else None)
        /\ convertOpenAIToGoogle (req_body req) = Return (call_body call)
        /\ handler_try fetch req clock0
           = match fetch call with
             | Throw e => (before_answer req call, clock0, Some e)
             | Return response =>
                 if negb (response_ok response) then
                   upstream_failed response (before_answer req call) clock0
                 else if is_stream_request (req_body req) then
                   answer_stream response model (before_answer req call)
                     clock0
                 else
                   answer_whole response model (before_answer req call)
                     clock0
             end).
Proof.
  intros Ha Hk. unfold handler_try. rewrite Ha, startsWith_prefix.
  cbn [negb]. rewrite key_of_Bearer.
  destruct (up_to_space rest) as [|k0 key] eqn:Hkey; [congruence |].
  destruct (member (req_body req) (lit "stream")) as [stream | e] eqn:Hs.
  2:{ left. exists e. split; [reflexivity |].
      intros call model (Hn & _).
      destruct (req_body req); discriminate. }
  pose proof (@member_returns _ _ _ Hs) as Hn.
  rewrite <- (@is_stream_request_member (req_body req) stream Hs).
  destruct (handler_model (req_body req)) as [model | e] eqn:Hm.
  2:{ left. exists e. split; [reflexivity |].
      intros call model (_ & Hm' & _). discriminate. }
  destruct (ToString model) as [model_text | e] eqn:Ht.
  2:{ left. exists e. split; [reflexivity |].
      intros call model' (_ & Hm' & (t & Ht') & _).
      injection Hm' as <-. rewrite Ht in Ht'. discriminate. }
  destruct (convertOpenAIToGoogle (req_body req)) as [googleRequest | e]
    eqn:Hc.
  2:{ left. exists e. split; [reflexivity |].
      intros call model' (_ & _ & _ & Hc'). discriminate. }
  right.
  exists {| call_url :=
              baseUrl ++ lit "/" ++ model_text ++ lit ":"
                ++ (if is_stream_request (req_body req)
                    then lit "streamGenerateContent"
                    else lit "generateContent");
            call_key := k0 :: key;
            call_alt := if is_stream_request (req_body req)
                        then Some (lit "sse") else None;
            call_body := googleRequest |}, model.
  cbn [call_url call_key call_alt call_body].
  split; [exists rest; split; [reflexivity | symmetry; exact Hkey] |].
  split; [discriminate |]. split; [exact Hn |].
  split; [first [reflexivity | exact Hm] |].
  split; [exists model_text; split; first [reflexivity | exact Ht] |].
  split; [reflexivity |]. split; [first [reflexivity | exact Hc] |].
  unfold before_answer. cbn [call_body]. reflexivity.
Qed.

(** Every run of the handler follows one of the paths. *)
Lemma handler_path (req : request) (clock0 : nat) :
  path fetch req clock0 (handler fetch req clock0).
Proof.
  destruct (eqb (req_method req) (lit "OPTIONS")) eqn:Ho.
  { unfold handler. rewrite Ho. apply preflight.
    apply eqb_spec. exact Ho. }
  destruct (eqb (req_method req) (lit "POST")) eqn:Hp.
  2:{ unfold handler. rewrite Ho, Hp. apply wrong_method; intros E.
      - apply eqb_spec in E. congruence.
      - apply eqb_spec in E. congruence. }
  apply eqb_spec in Hp. rewrite (@handler_POST req clock0 Hp).
  destruct (req_authorization req) as [authHeader|] eqn:Ha.
  2:{ unfold handler_try. rewrite Ha.
      apply (no_key fetch _ Hp). left. split; [exact Ha | reflexivity]. }
  destruct (startsWith authHeader (lit "Bearer ")) eqn:Hb.
  2:{ unfold handler_try. rewrite Ha, Hb.
      apply (no_key fetch _ Hp). right. left. exists authHeader.
      repeat split; assumption || reflexivity. }
  rewrite (@Bearer_split authHeader Hb) in Ha.
  destruct (up_to_space (skipn 7 authHeader)) as [|k0 key] eqn:Hkey.
  { unfold handler_try. rewrite Ha, startsWith_prefix.
    cbn [negb]. rewrite key_of_Bearer, Hkey.
    apply (no_key fetch _ Hp). right. right. exists (skipn 7 authHeader).
    repeat split; assumption || reflexivity. }
  assert (Hne : up_to_space (skipn 7 authHeader) <> [])
    by (rewrite Hkey; discriminate).
  destruct (@handler_try_with_key req clock0 _ Ha Hne)
    as [(e & -> & Hnot) | (call & model & A1 & A2 & A3 & A4 & A5 & A6 & A7 & ->)].
  - apply (bad_body fetch _ e Hp).
    intros call model (_ & _ & _ & B1 & B2 & (t & B3 & _) & _ & B4).
    apply (Hnot call model). repeat split; try assumption.
    exists t. exact B3.
  - assert (Hacc : accepted req call model).
    { split; [apply eqb_spec; exact Hp |].
      repeat split; assumption. }
    destruct (fetch call) as [response | e] eqn:Hf.
    + destruct (response_ok response) eqn:Hok; cbn [negb].
      * destruct (is_stream_request (req_body req)) eqn:Hst.
        -- apply (streaming fetch _ Hacc Hf Hok Hst).
        -- apply (whole fetch _ Hacc Hf Hok Hst).
      * apply (backend_failed fetch _ Hacc Hf Hok).
    + apply (no_answer fetch _ Hacc Hf).
Qed.

End HandlerPaths.

(** ** The handler: what is among its effects *)

Lemma quiet_effects (done : list effect) :
  forallb quiet done = true ->
  calls done = [] /\ streamed done = [] /\ existsb is_final done = false.
Proof.
  induction done as [|e done IH]; [repeat split |].
  cbn [forallb]. intros Hq. apply andb_true_iff in Hq.
  destruct Hq as [He Hd]. destruct (IH Hd) as (C & S & F).
  destruct e; try discriminate; repeat split;
    first [exact C | exact S | exact F].
Qed.





Lemma final_in_stream (tr : list event) :
  existsb is_final (map in_stream tr) = existsb is_end tr.
Proof.
  induction tr as [|e tr IH]; [reflexivity |].
  cbn [map existsb]. rewrite IH. destruct e; reflexivity.
Qed.

Lemma no_end (tr : list event) :
  count_end tr = 0%nat -> existsb is_end tr = false.
Proof.
  unfold count_end. induction tr as [|e tr IH]; [reflexivity |].
  cbn [filter existsb]. destruct (is_end e); [discriminate |]. exact IH.
Qed.

Section HandlerEffects.
Context `{Platform}.
Variable fetch : upstream_call -> result response.

Lemma before_answer_effects (req : request) (call : upstream_call) :
  calls (before_answer req call) = [call]
  /\ streamed (before_answer req call) = []
  /\ existsb is_final (before_answer req call) = false.
Proof. unfold before_answer. destruct DEBUG; repeat split. Qed.

Lemma CORS_effects :
  calls CORS_headers = [] /\ streamed CORS_headers = []
  /\ existsb is_final CORS_headers = false.
Proof. repeat split. Qed.

(** A throw in the [try] block: the error on the console, then 500. *)
Lemma conclude_thrown (done : list effect) (clock0 : nat) (e : exn) :
  conclude (done, clock0, Some e)
  = (CORS_headers ++ done
       ++ [handler_console_error (Proxy_error e)]
       ++ [res_status_json 500 (plain_error (lit "Internal server error"))],
     clock0).
Proof. reflexivity. Qed.

Lemma upstream_failed_shape (response : response) (done : list effect)
      (clock0 : nat) :
  exists mid code answer,
    conclude (upstream_failed response done clock0)
    = (CORS_headers ++ done ++ mid ++ [res_status_json code answer], clock0)
    /\ forallb quiet mid = true.
Proof.
  unfold upstream_failed.
  destruct (response_json response) as [errorData | e].
  - destruct (member errorData (lit "error")) as [error | e].
    + exists (if DEBUG
              then [handler_console_log (Google_API_Error errorData)]
              else []),
        (response_status response),
        (upstream_error_envelope
           (or_else (opt_member error (lit "message"))
              (VString (lit "Google API error")))
           (response_status response)).
      unfold conclude. rewrite <- !app_assoc.
      split; [reflexivity | destruct DEBUG; reflexivity].
    + exists ((if DEBUG
               then [handler_console_log (Google_API_Error errorData)]
               else [])
                ++ [handler_console_error (Proxy_error e)]),
        500, (plain_error (lit "Internal server error")).
      rewrite conclude_thrown, <- !app_assoc.
      split; [reflexivity | destruct DEBUG; reflexivity].
  - exists [handler_console_error (Proxy_error e)],
      500, (plain_error (lit "Internal server error")).
    rewrite conclude_thrown. split; reflexivity.
Qed.

Lemma answer_whole_shape (response : response) (model : value)
      (done : list effect) (clock0 : nat) :
  exists mid code answer clock,
    conclude (answer_whole response model done clock0)
    = (CORS_headers ++ done ++ mid ++ [res_status_json code answer], clock)
    /\ forallb quiet mid = true.
Proof.
  unfold answer_whole.
  destruct (response_json response) as [googleResponse | e].
  - destruct (convertGoogleToOpenAI googleResponse model _)
      as [[openAIResponse | e] w].
    + exists ((if DEBUG
               then [handler_console_log (Google_Response googleResponse)]
               else [])
                ++ [res_setHeader (lit "Content-Type")
                      (lit "application/json")]),
        (response_status response), openAIResponse, (clock w).
      unfold conclude. rewrite <- !app_assoc.
      split; [reflexivity | destruct DEBUG; reflexivity].
    + exists ((if DEBUG
               then [handler_console_log (Google_Response googleResponse)]
               else [])
                ++ [handler_console_error (Proxy_error e)]),
        500, (plain_error (lit "Internal server error")), (clock w).
      rewrite conclude_thrown, <- !app_assoc.
      split; [reflexivity | destruct DEBUG; reflexivity].
  - exists [handler_console_error (Proxy_error e)],
      500, (plain_error (lit "Internal server error")), clock0.
    rewrite conclude_thrown. split; reflexivity.
Qed.

(** What an accepted request leads to. *)
Lemma handler_accepted (req : request) (clock0 : nat)
      (call : upstream_call) (model : value) :
  accepted req call model ->
  handler fetch req clock0
  = conclude
      match fetch call with
      | Throw e => (before_answer req call, clock0, Some e)
      | Return response =>
          if negb (response_ok response) then
            upstream_failed response (before_answer req call) clock0
          else if is_stream_request (req_body req) then
            answer_stream response model (before_answer req call) clock0
          else answer_whole response model (before_answer req call) clock0
      end.
Proof.
  intros Hacc.
  pose proof Hacc as (Hp & (rest & Ha & Hk) & Hne & Hn & Hm & Ht & Hl & Hb).
  apply eqb_spec in Hp. rewrite (@handler_POST _ fetch req clock0 Hp).
  rewrite Hk in Hne.
  destruct (@handler_try_with_key _ fetch req clock0 rest Ha Hne)
    as [(e & _ & Hnot) | (c & m & A1 & A2 & A3 & A4 & A5 & A6 & A7 & ->)].
  - exfalso. apply (Hnot call model).
    destruct Ht as (t & Ht & _). repeat split; try assumption.
    exists t. exact Ht.
  - assert (Hacc' : accepted req c m).
    { split; [apply eqb_spec; exact Hp |]. repeat split; assumption. }
    destruct (@accepted_unique _ req c call m model Hacc' Hacc) as [-> ->].
    reflexivity.
Qed.

End HandlerEffects.

(** ** The handler: properties *)

(** X9. On every path the handler sets the four CORS headers first and
    answers the request exactly once, as the last thing it does: with a
    status and no body, with a status and a JSON body, or by ending the
    stream. Nothing is sent after the answer, and no path leaves the
    request unanswered. *)
Theorem handler_answers_exactly_once
        (P : Platform) (fetch : upstream_call -> result response)
        (req : request) (clock0 : nat) :
  exists before final,
    fst (handler fetch req clock0) = CORS_headers ++ before ++ [final]
    /\ is_final final = true
    /\ existsb is_final (CORS_headers ++ before) = false.
Proof.
  destruct (handler_path fetch req clock0)
    as [Hm | Ho Hp | answer Hm Hk | e Hm Hno | call model e Hacc Hf
        | call model response Hacc Hf Hok
        | call model response Hacc Hf Hok Hst
        | call model response Hacc Hf Hok Hst].
  - exists [], (res_status_end 200). repeat split.
  - exists [],
      (res_status_json 405 (plain_error (lit "Method not allowed"))).
    split; [reflexivity |]. split; reflexivity.
  - exists [], (res_status_json 401 answer).
    split; [reflexivity |]. split; reflexivity.
  - rewrite conclude_thrown.
    exists [handler_console_error (Proxy_error e)],
      (res_status_json 500 (plain_error (lit "Internal server error"))).
    split; [reflexivity |]. split; reflexivity.
  - rewrite conclude_thrown.
    destruct (before_answer_effects req call) as (_ & _ & F).
    exists (before_answer req call
              ++ [handler_console_error (Proxy_error e)]),
      (res_status_json 500 (plain_error (lit "Internal server error"))).
    cbn [fst]. rewrite <- !app_assoc.
    split; [reflexivity |]. split; [reflexivity |].
    rewrite !existsb_app, F. reflexivity.
  - destruct (upstream_failed_shape response (before_answer req call) clock0)
      as (mid & code & answer & -> & Hq).
    destruct (before_answer_effects req call) as (_ & _ & F).
    destruct (quiet_effects mid Hq) as (_ & _ & Fm).
    exists (before_answer req call ++ mid), (res_status_json code answer).
    cbn [fst]. rewrite <- !app_assoc.
    split; [reflexivity |]. split; [reflexivity |].
    rewrite !existsb_app, F, Fm. reflexivity.
  - unfold answer_stream, conclude. cbn [fst].
    destruct (handler_stream_appends P model (response_reads response)
                {| trace := []; clock := clock0 |})
      as (new & final & -> & _ & _ & E & Hfin).
    destruct (before_answer_effects req call) as (_ & _ & F).
    exists (before_answer req call ++ stream_headers
              ++ map in_stream (new ++ [final])), (in_stream res_end).
    cbn [trace app]. split.
    + rewrite !map_app, <- !app_assoc. reflexivity.
    + split; [reflexivity |].
      rewrite !existsb_app, F, final_in_stream, existsb_app, (no_end _ E).
      destruct Hfin as [-> | (e & ->)]; reflexivity.
  - destruct (answer_whole_shape response model (before_answer req call)
                clock0) as (mid & code & answer & clock & -> & Hq).
    destruct (before_answer_effects req call) as (_ & _ & F).
    destruct (quiet_effects mid Hq) as (_ & _ & Fm).
    exists (before_answer req call ++ mid), (res_status_json code answer).
    cbn [fst]. rewrite <- !app_assoc.
    split; [reflexivity |]. split; [reflexivity |].
    rewrite !existsb_app, F, Fm. reflexivity.
Qed.


(** X11. Requests that are turned away. An [OPTIONS] request is answered
    200 with no body; any method other than [OPTIONS] and [POST], 405; a
    POST without [authorization], or with one that does not begin with
    [Bearer ], 401 [Unauthorized]; a POST whose [Bearer ] is followed by
    nothing or by a space, 401 [Invalid API key]. In each case the body is
    not looked at, the backend is not called and the clock is not read. *)
Theorem requests_turned_away
        (P : Platform) (fetch : upstream_call -> result response)
        (req : request) (clock0 : nat) :
  (req_method req = lit "OPTIONS" ->
   handler fetch req clock0
   = (CORS_headers ++ [res_status_end 200], clock0))
  /\ (req_method req <> lit "OPTIONS" ->
      req_method req <> lit "POST" ->
      handler fetch req clock0
      = (CORS_headers
           ++ [res_status_json 405 (plain_error (lit "Method not allowed"))],
         clock0))
  /\ (req_method req = lit "POST" ->
      forall answer,
        keyless req answer ->
        handler fetch req clock0
        = (CORS_headers ++ [res_status_json 401 answer], clock0)).
Proof.
  split; [| split].
  - intros Hm. unfold handler. rewrite Hm. reflexivity.
  - intros Ho Hp. unfold handler.
    destruct (eqb (req_method req) (lit "OPTIONS")) eqn:Eo;
      [apply eqb_spec in Eo; contradiction |].
    destruct (eqb (req_method req) (lit "POST")) eqn:Ep;
      [apply eqb_spec in Ep; contradiction |].
    reflexivity.
  - intros Hm answer Hk. rewrite (@handler_POST P fetch req clock0 Hm).
    unfold handler_try.
    destruct Hk as [(Ha & ->) | [(a & Ha & Hs & ->) | (rest & Ha & Hr & ->)]].
    + rewrite Ha. reflexivity.
    + rewrite Ha, Hs. reflexivity.
    + rewrite Ha, startsWith_prefix, key_of_Bearer, Hr. reflexivity.
Qed.

(** X11 on a preflight, a GET, and three POSTs without a key. *)
Lemma requests_turned_away_witness :
  handler (H := node) (backend whole_answer)
    {| req_method := lit "OPTIONS"; req_authorization := None;
       req_body := VUndefined |} 0
  = (CORS_headers ++ [res_status_end 200], 0%nat)
  /\ handler (H := node) (backend whole_answer)
       {| req_method := lit "GET"; req_authorization := None;
          req_body := VUndefined |} 0
     = (CORS_headers
          ++ [res_status_json 405 (plain_error (lit "Method not allowed"))],
        0%nat)
  /\ handler (H := node) (backend whole_answer)
       {| req_method := lit "POST";
          req_authorization := Some (lit "Basic dXNlcg==");
          req_body := VUndefined |} 0
     = (CORS_headers
          ++ [res_status_json 401 (plain_error (lit "Unauthorized"))],
        0%nat)
  /\ handler (H := node) (backend whole_answer)
       {| req_method := lit "POST";
          req_authorization := Some (lit "Bearer  sk-test");
          req_body := VUndefined |} 0
     = (CORS_headers
          ++ [res_status_json 401 (plain_error (lit "Invalid API key"))],
        0%nat).
Proof.
  split; [| split; [| split]].
  - apply (proj1 (@requests_turned_away node (backend whole_answer)
                    {| req_method := lit "OPTIONS";
                       req_authorization := None;
                       req_body := VUndefined |} 0%nat)).
    reflexivity.
  - apply (proj1 (proj2 (@requests_turned_away node (backend whole_answer)
                           {| req_method := lit "GET";
                              req_authorization := None;
                              req_body := VUndefined |} 0%nat)));
      discriminate.
  - apply (proj2 (proj2 (@requests_turned_away node (backend whole_answer)
                           {| req_method := lit "POST";
                              req_authorization := Some (lit "Basic dXNlcg==");
                              req_body := VUndefined |} 0%nat))
             eq_refl).
    right. left. exists (lit "Basic dXNlcg=="). repeat split.
  - apply (proj2 (proj2 (@requests_turned_away node (backend whole_answer)
                           {| req_method := lit "POST";
                              req_authorization := Some (lit "Bearer  sk-test");
                              req_body := VUndefined |} 0%nat))
             eq_refl).
    right. right. exists (lit " sk-test"). repeat split.
Defined.


Lemma chat_request_accepted (stream : bool) :
  accepted (H := node) (chat_request stream) (chat_call stream) gemini_pro.
Proof.
  split; [reflexivity |].
  split; [exists (lit "sk-test and more"); split; reflexivity |].
  split; [discriminate |]. split; [reflexivity |]. split; [reflexivity |].
  split; [exists (lit "gemini-pro"); destruct stream; split; reflexivity |].
  destruct stream; split; reflexivity.
Qed.

(** X13. When the backend answers an accepted request without success, the
    client is answered with the backend's status and an envelope of type
    [google_api_error] whose code is that status and whose message is the
    backend's [error.message], or [Google API error] when that is absent or
    falsy. This holds for a stream request too: no event-stream header and
    nothing of the stream is sent. *)
Theorem backend_failure_is_passed_on
        (P : Platform) (fetch : upstream_call -> result response)
        (req : request) (clock0 : nat) (call : upstream_call)
        (model : value) (response : response) (errorData : value) :
  accepted req call model ->
  fetch call = Return response ->
  response_ok response = false ->
  response_json response = Return errorData ->
  nullish errorData = false ->
  handler fetch req clock0
  = (CORS_headers ++ before_answer req call
       ++ (if DEBUG then [handler_console_log (Google_API_Error errorData)]
           else [])
       ++ [res_status_json (response_status response)
             (upstream_error_envelope
                (or_else
                   (opt_member (opt_member errorData (lit "error"))
                      (lit "message"))
                   (VString (lit "Google API error")))
                (response_status response))],
     clock0).
Proof.
  intros Hacc Hf Hok Hj Hn.
  rewrite (@handler_accepted P fetch req clock0 call model Hacc), Hf, Hok.
  cbn [negb]. unfold upstream_failed.
  rewrite Hj, (@member_of_value errorData (lit "error") Hn).
  unfold conclude. rewrite <- !app_assoc. reflexivity.
Qed.

(** X13 on a stream request whose key the backend refuses. *)
Lemma backend_failure_is_passed_on_witness :
  accepted (H := node) (chat_request true) (chat_call true) gemini_pro
  /\ handler (H := node) (backend refusal) (chat_request true) 0
     = (CORS_headers
          ++ [fetch_call (chat_call true);
              res_status_json 400
                (upstream_error_envelope (VString (lit "bad key")) 400)],
        0%nat).
Proof.
  split; [apply chat_request_accepted |].
  apply (@backend_failure_is_passed_on node (backend refusal)
           (chat_request true) 0%nat (chat_call true) gemini_pro refusal
           bad_key_response (chat_request_accepted true));
    reflexivity.
Defined.

(** X14. When the backend answers with success an accepted request that is
    not a stream request, the client is answered with the backend's status
    and what [convertGoogleToOpenAI] makes of the backend's document for
    the model of the request: the status is the backend's also when that is
    an error envelope. *)
Theorem whole_answer_mirrors_the_backend
        (P : Platform) (fetch : upstream_call -> result response)
        (req : request) (clock0 : nat) (call : upstream_call)
        (model : value) (response : response) (googleResponse : value) :
  accepted req call model ->
  fetch call = Return response ->
  response_ok response = true ->
  is_stream_request (req_body req) = false ->
  response_json response = Return googleResponse ->
  nullish googleResponse = false ->
  exists openAIResponse w,
    convertGoogleToOpenAI googleResponse model (at_clock clock0)
    = (Return openAIResponse, w)
    /\ handler fetch req clock0
       = (CORS_headers ++ before_answer req call
            ++ (if DEBUG
                then [handler_console_log (Google_Response googleResponse)]
                else [])
            ++ [res_setHeader (lit "Content-Type") (lit "application/json");
                res_status_json (response_status response) openAIResponse],
          clock w).
Proof.
  intros Hacc Hf Hok Hst Hj Hn.
  rewrite (@handler_accepted P fetch req clock0 call model Hacc), Hf, Hok,
    Hst.
  cbn [negb]. unfold answer_whole. rewrite Hj. fold (at_clock clock0).
  destruct (convertGoogleToOpenAI googleResponse model (at_clock clock0))
    as [[openAIResponse | e] w] eqn:Hc.
  - exists openAIResponse, w. split; [reflexivity |].
    unfold conclude. rewrite <- !app_assoc. reflexivity.
  - exfalso. unfold convertGoogleToOpenAI in Hc.
    rewrite (@member_of_value googleResponse (lit "error") Hn) in Hc.
    destruct (ToBoolean _) in Hc; [discriminate |].
    destruct (negb _) in Hc; [discriminate |].
    unfold Date_now_call in Hc. discriminate.
Qed.

(** X14 on the answer of scenario 3. *)
Lemma whole_answer_mirrors_the_backend_witness :
  accepted (H := node) (chat_request false) (chat_call false) gemini_pro
  /\ exists openAIResponse,
       fst (handler (H := node) (backend whole_answer) (chat_request false) 0)
       = CORS_headers
           ++ [fetch_call (chat_call false);
               res_setHeader (lit "Content-Type") (lit "application/json");
               res_status_json 200 openAIResponse]
       /\ opt_member
            (opt_member (opt_first (opt_member openAIResponse (lit "choices")))
               (lit "message"))
            (lit "content")
          = VString (lit "Hello").
Proof.
  split; [apply chat_request_accepted |].
  destruct (@whole_answer_mirrors_the_backend node (backend whole_answer)
              (chat_request false) 0%nat (chat_call false) gemini_pro
              whole_answer hello_response (chat_request_accepted false)
              eq_refl eq_refl eq_refl eq_refl eq_refl)
    as (openAIResponse & w & Hc & Hh).
  exists openAIResponse. split.
  - rewrite Hh. reflexivity.
  - cbv in Hc. injection Hc as <- _. reflexivity.
Defined.

(** X15. Failures inside the handler. A POST with a key whose body cannot
    be taken to the backend (a throw while the [stream] flag, the model,
    the address or the translated request is made) is answered 500 with
    [Internal server error], the error on the console, and the backend is
    not called. When the call of the backend itself fails, the same answer
    follows the call. *)
Theorem internal_failures_are_500
        (P : Platform) (fetch : upstream_call -> result response)
        (req : request) (clock0 : nat) :
  (forall rest,
     req_method req = lit "POST" ->
     req_authorization req = Some (lit "Bearer " ++ rest) ->
     up_to_space rest <> [] ->
     (forall call model, ~ accepted req call model) ->
     exists e,
       handler fetch req clock0
       = (CORS_headers
            ++ [handler_console_error (Proxy_error e);
                res_status_json 500
                  (plain_error (lit "Internal server error"))],
          clock0))
  /\ (forall call model e,
        accepted req call model ->
        fetch call = Throw e ->
        handler fetch req clock0
        = (CORS_headers ++ before_answer req call
             ++ [handler_console_error (Proxy_error e);
                 res_status_json 500
                   (plain_error (lit "Internal server error"))],
           clock0)).
Proof.
  split.
  - intros rest Hm Ha Hk Hno.
    rewrite (@handler_POST P fetch req clock0 Hm).
    destruct (@handler_try_with_key P fetch req clock0 rest Ha Hk)
      as [(e & -> & _) | (c & m & A1 & A2 & A3 & A4 & A5 & A6 & A7 & _)].
    + exists e. reflexivity.
    + exfalso. apply (Hno c m).
      split; [apply eqb_spec; exact Hm |]. repeat split; assumption.
  - intros call model e Hacc Hf.
    rewrite (@handler_accepted P fetch req clock0 call model Hacc), Hf.
    reflexivity.
Qed.

(** X15 on a POST whose body is [null], and on a backend that cannot be
    reached. *)
Lemma internal_failures_are_500_witness :
  (exists e,
     handler (H := node) (backend whole_answer)
       {| req_method := lit "POST";
          req_authorization := Some (lit "Bearer sk-test");
          req_body := VNull |} 0
     = (CORS_headers
          ++ [handler_console_error (Proxy_error e);
              res_status_json 500 (plain_error (lit "Internal server error"))],
        0%nat))
  /\ handler (H := node) (fun _ => Throw NetworkError) (chat_request true) 0
     = (CORS_headers
          ++ [fetch_call (chat_call true);
              handler_console_error (Proxy_error NetworkError);
              res_status_json 500 (plain_error (lit "Internal server error"))],
        0%nat).
Proof.
  split.
  - apply (proj1 (@internal_failures_are_500 node (backend whole_answer)
                    {| req_method := lit "POST";
                       req_authorization := Some (lit "Bearer sk-test");
                       req_body := VNull |} 0%nat)
             (lit "sk-test")).
    + reflexivity.
    + reflexivity.
    + discriminate.
    + intros call model (_ & _ & _ & Hn & _). discriminate.
  - apply (proj2 (@internal_failures_are_500 node (fun _ => Throw NetworkError)
                    (chat_request true) 0%nat)
             (chat_call true) gemini_pro NetworkError
             (chat_request_accepted true)).
    reflexivity.
Defined.

(** ** The decoder and the newlines *)

Lemma low_bits_not_zero (b q lo hi : N) :
  (q * 2 ^ lo < b)%N -> (b <= hi)%N -> (hi < (q + 1) * 2 ^ lo)%N ->
  N.land b (N.ones lo) <> 0%N.
Proof.
  intros H1 H2 H3. rewrite N.land_ones. intros Hz.
  assert (Hp : (2 ^ lo <> 0)%N) by (apply N.pow_nonzero; discriminate).
  pose proof (N.div_mod b (2 ^ lo) Hp) as Hd. rewrite Hz, N.add_0_r in Hd.
  set (p := (2 ^ lo)%N) in *. set (d := (b / p)%N) in *.
  assert (Hpos : (0 < p)%N) by lia.
  assert (Hl : (q < d)%N)
    by (apply (N.mul_lt_mono_pos_r p); [exact Hpos | lia]).
  assert (Hu : (d < q + 1)%N)
    by (apply (N.mul_lt_mono_pos_r p); [exact Hpos | lia]).
  lia.
Qed.

Lemma continuation_not_LF (cp b : N) :
  cp <> 0%N -> N.lor (N.shiftl cp 6) (N.land b 63) <> 10%N.
Proof.
  intros Hcp E.
  assert (Hs : N.shiftr (N.lor (N.shiftl cp 6) (N.land b 63)) 6 = 0%N)
    by (rewrite E; reflexivity).
  rewrite N.shiftr_lor, N.shiftr_shiftl_l in Hs by reflexivity.
  apply N.lor_eq_0_l in Hs. rewrite N.sub_diag, N.shiftl_0_r in Hs.
  contradiction.
Qed.

Lemma continuation_not_zero (cp b : N) :
  cp <> 0%N -> N.lor (N.shiftl cp 6) (N.land b 63) <> 0%N.
Proof.
  intros Hcp E. apply N.lor_eq_0_l in E.
  apply N.shiftl_eq_0_iff in E. contradiction.
Qed.

Lemma sound_reset (st : TextDecoder.state) : sound (TextDecoder.reset st).
Proof. split; [cbn; lia | split; [cbn; lia | left; reflexivity]]. Qed.

Lemma lead_newlines (st : TextDecoder.state) (b : N) :
  sound st ->
  sound (fst (TextDecoder.lead st b))
  /\ newlines_among (snd (TextDecoder.lead st b))
     = if (LF =? b)%N then 1%nat else 0%nat.
Proof.
  intros Hs. unfold TextDecoder.lead, TextDecoder.between.
  destruct (b <=? 127)%N eqn:E1.
  { cbn [fst snd]. split; [exact Hs |].
    unfold newlines_among. cbn [filter].
    destruct (LF =? b)%N; reflexivity. }
  apply N.leb_gt in E1.
  assert (Hb : (LF =? b)%N = false) by (apply N.eqb_neq; unfold LF; lia).
  rewrite Hb.
  destruct ((194 <=? b) && (b <=? 223))%N eqn:E2.
  { apply andb_true_iff in E2. destruct E2 as [A B].
    apply N.leb_le in A, B. cbn [fst snd].
    split; [| reflexivity].
    split; [cbn; lia |]. split; [cbn; lia |].
    right. left. cbn [TextDecoder.code_point].
    change 31%N with (N.ones 5).
    apply (@low_bits_not_zero b 6%N 5%N 223%N); cbn; lia. }
  destruct ((224 <=? b) && (b <=? 239))%N eqn:E3.
  { apply andb_true_iff in E3. destruct E3 as [A B].
    apply N.leb_le in A, B. cbn [fst snd].
    split; [| reflexivity].
    split; [cbn; destruct (b =? 224)%N; lia |].
    split; [cbn; destruct (b =? 237)%N; lia |].
    cbn. destruct (N.eqb_spec b 224) as [E | E].
    - right. right. split; [lia | discriminate].
    - right. left. change 15%N with (N.ones 4).
      apply (@low_bits_not_zero b 14%N 4%N 239%N); cbn; lia. }
  destruct ((240 <=? b) && (b <=? 244))%N eqn:E4.
  { apply andb_true_iff in E4. destruct E4 as [A B].
    apply N.leb_le in A, B. cbn [fst snd].
    split; [| reflexivity].
    split; [cbn; destruct (b =? 240)%N; lia |].
    split; [cbn; destruct (b =? 244)%N; lia |].
    cbn. destruct (N.eqb_spec b 240) as [E | E].
    - right. right. split; [lia | discriminate].
    - right. left. change 7%N with (N.ones 3).
      apply (@low_bits_not_zero b 30%N 3%N 244%N); cbn; lia. }
  split; [exact Hs | reflexivity].
Qed.

Lemma handler_newlines (st : TextDecoder.state) (b : N) :
  sound st ->
  sound (fst (TextDecoder.handler st b))
  /\ newlines_among (snd (TextDecoder.handler st b))
     = if (LF =? b)%N then 1%nat else 0%nat.
Proof.
  intros Hs. unfold TextDecoder.handler.
  destruct (TextDecoder.bytes_needed st =? 0)%N eqn:En.
  { apply lead_newlines. exact Hs. }
  apply N.eqb_neq in En. destruct Hs as (Hl & Hu & Hc).
  destruct (TextDecoder.between (TextDecoder.lower_boundary st)
              (TextDecoder.upper_boundary st) b) eqn:Eb; cbn [negb].
  - unfold TextDecoder.between in Eb. apply andb_true_iff in Eb.
    destruct Eb as [A B]. apply N.leb_le in A, B.
    assert (Hb : (LF =? b)%N = false) by (apply N.eqb_neq; unfold LF; lia).
    rewrite Hb.
    destruct (TextDecoder.bytes_seen st + 1 =? TextDecoder.bytes_needed st)%N
      eqn:Ef; cbn [fst snd].
    + split; [apply sound_reset |].
      apply N.eqb_eq in Ef.
      assert (Hcp : TextDecoder.code_point st <> 0%N)
        by (destruct Hc as [? | [? | [_ ?]]]; [contradiction | assumption
                                              | contradiction]).
      unfold newlines_among. cbn [filter].
      destruct (N.eqb_spec LF
                  (N.lor (N.shiftl (TextDecoder.code_point st) 6)
                     (N.land b 63))) as [E | _]; [| reflexivity].
      exfalso. apply (@continuation_not_LF (TextDecoder.code_point st) b Hcp).
      symmetry. exact E.
    + split; [| reflexivity].
      split; [cbn; lia |]. split; [cbn; lia |].
      right. left. cbn [TextDecoder.code_point].
      destruct Hc as [? | [Hcp | [H144 _]]]; [contradiction | |].
      * apply continuation_not_zero. exact Hcp.
      * intros E. apply N.lor_eq_0_iff in E. destruct E as [_ E].
        revert E. change 63%N with (N.ones 6).
        apply (@low_bits_not_zero b 2%N 6%N 191%N); cbn; lia.
  - pose proof (@lead_newlines (TextDecoder.reset st) b (sound_reset st))
      as (Hs' & Hn').
    destruct (TextDecoder.lead (TextDecoder.reset st) b) as [st' items].
    cbn [fst snd] in *. split; [exact Hs' |].
    rewrite <- Hn'. reflexivity.
Qed.

Lemma count_LF_app (a b : jsstring) :
  count_LF (a ++ b) = (count_LF a + count_LF b)%nat.
Proof. unfold count_LF. rewrite filter_app. apply length_app. Qed.

Lemma count_LF_utf16 (cp : N) :
  count_LF (TextDecoder.utf16 cp) = if (LF =? cp)%N then 1%nat else 0%nat.
Proof.
  unfold TextDecoder.utf16, count_LF.
  destruct (N.leb_spec cp 65535) as [Hc | Hc].
  - cbn [filter]. destruct (LF =? cp)%N; reflexivity.
  - cbn [filter].
    destruct (N.eqb_spec LF (55296 + N.shiftr (cp - 65536) 10)) as [E | _];
      [unfold LF in E; lia |].
    destruct (N.eqb_spec LF (56320 + N.land (cp - 65536) 1023)) as [E | _];
      [unfold LF in E; lia |].
    destruct (N.eqb_spec LF cp) as [E | _]; [unfold LF in E; lia |].
    reflexivity.
Qed.

Lemma sound_see_BOM (st : TextDecoder.state) :
  sound st -> sound (TextDecoder.see_BOM st).
Proof. intros Hs. exact Hs. Qed.

Lemma serialize_newlines (items : list N) (st : TextDecoder.state) :
  sound st ->
  sound (fst (TextDecoder.serialize st items))
  /\ count_LF (snd (TextDecoder.serialize st items)) = newlines_among items.
Proof.
  revert st. induction items as [|cp items IH]; intros st Hs.
  - split; [exact Hs | reflexivity].
  - cbn [TextDecoder.serialize].
    assert (Hcons : newlines_among (cp :: items)
                    = ((if (LF =? cp)%N then 1 else 0)
                       + newlines_among items)%nat).
    { unfold newlines_among. cbn [filter].
      destruct (LF =? cp)%N; reflexivity. }
    destruct (TextDecoder.BOM_seen st).
    + destruct (IH st Hs) as (S1 & C1).
      destruct (TextDecoder.serialize st items) as [st' out].
      cbn [fst snd] in *. split; [exact S1 |].
      rewrite count_LF_app, count_LF_utf16, C1, Hcons. reflexivity.
    + destruct (IH (TextDecoder.see_BOM st) (sound_see_BOM Hs)) as (S1 & C1).
      destruct (N.eqb_spec cp 65279) as [E | _].
      * split; [exact S1 |]. rewrite C1, Hcons. subst cp. reflexivity.
      * destruct (TextDecoder.serialize (TextDecoder.see_BOM st) items)
          as [st' out].
        cbn [fst snd] in *. split; [exact S1 |].
        rewrite count_LF_app, count_LF_utf16, C1, Hcons. reflexivity.
Qed.

Lemma decode_newlines (bytes : list byte) (st : TextDecoder.state) :
  sound st ->
  count_LF (fst (TextDecoder.decode st bytes)) = count_newline_bytes bytes.
Proof.
  revert st. induction bytes as [|b bytes IH]; intros st Hs.
  - reflexivity.
  - cbn [TextDecoder.decode].
    destruct (@handler_newlines st (Byte.to_N b) Hs) as (S1 & C1).
    destruct (TextDecoder.handler st (Byte.to_N b)) as [st1 items].
    cbn [fst snd] in *.
    destruct (@serialize_newlines items st1 S1) as (S2 & C2).
    destruct (TextDecoder.serialize st1 items) as [st2 txt].
    cbn [fst snd] in *. specialize (IH st2 S2).
    destruct (TextDecoder.decode st2 bytes) as [more st3].
    cbn [fst snd] in *. rewrite count_LF_app, C2, C1, IH.
    unfold count_newline_bytes. cbn [filter].
    destruct (LF =? Byte.to_N b)%N; reflexivity.
Qed.

Lemma lines_of_count (text cur : jsstring) :
  List.length (fst (lines_of cur text)) = count_LF text.
Proof.
  revert cur. induction text as [|c t IH]; intros cur.
  - reflexivity.
  - cbn [lines_of]. unfold count_LF. cbn [filter].
    rewrite (N.eqb_sym LF c). destruct (c =? LF)%N.
    + specialize (IH []). destruct (lines_of [] t) as [ls r].
      cbn [fst List.length] in *. rewrite IH. reflexivity.
    + apply IH.
Qed.

Lemma sound_fresh : sound TextDecoder.fresh.
Proof. split; [cbn; lia | split; [cbn; lia | left; reflexivity]]. Qed.

(** X16. The lines are cut where the backend put its newline bytes, however
    the rest is encoded: the decoded text of a stream holds exactly as many
    newlines as there were newline bytes, malformed or truncated sequences
    neither adding nor swallowing one, so it has exactly that many complete
    lines. *)
Theorem newlines_are_the_newline_bytes (bytes : list byte) :
  count_LF (decoded bytes) = count_newline_bytes bytes
  /\ List.length (complete_lines (decoded bytes)) = count_newline_bytes bytes.
Proof.
  assert (H : count_LF (decoded bytes) = count_newline_bytes bytes)
    by (apply decode_newlines; apply sound_fresh).
  split; [exact H |].
  unfold complete_lines. rewrite lines_of_count. exact H.
Qed.

(** ** The decoder on ASCII *)

Lemma decode_ASCII (bytes : list byte) (st : TextDecoder.state) :
  TextDecoder.bytes_needed st = 0%N ->
  Forall (fun b => (Byte.to_N b <= 127)%N) bytes ->
  fst (TextDecoder.decode st bytes) = map Byte.to_N bytes.
Proof.
  intros Hn Hb. revert st Hn.
  induction Hb as [|b bytes Hle _ IH]; intros st Hn.
  - reflexivity.
  - cbn [TextDecoder.decode map]. unfold TextDecoder.handler.
    rewrite Hn. cbn [N.eqb]. unfold TextDecoder.lead.
    apply N.leb_le in Hle. rewrite Hle. apply N.leb_le in Hle.
    cbn [TextDecoder.serialize].
    assert (Hu : TextDecoder.utf16 (Byte.to_N b) = [Byte.to_N b]).
    { unfold TextDecoder.utf16.
      destruct (N.leb_spec (Byte.to_N b) 65535); [reflexivity | lia]. }
    destruct (TextDecoder.BOM_seen st).
    + specialize (IH st Hn).
      destruct (TextDecoder.decode st bytes) as [more st3].
      cbn [fst] in *. rewrite Hu, IH. reflexivity.
    + destruct (N.eqb_spec (Byte.to_N b) 65279) as [E | _]; [lia |].
      specialize (IH (TextDecoder.see_BOM st) Hn).
      destruct (TextDecoder.decode (TextDecoder.see_BOM st) bytes)
        as [more st3].
      cbn [fst] in *. rewrite Hu, IH. reflexivity.
Qed.

(** X17. Bytes that are all ASCII reach the line loop as they are, one code
    unit for each byte, however they are cut into chunks. *)
Theorem ASCII_is_decoded_as_it_is (chunks : list (list byte)) :
  Forall (fun b => (Byte.to_N b <= 127)%N) (List.concat chunks) ->
  decoded (List.concat chunks) = map Byte.to_N (List.concat chunks).
Proof. intros Hb. apply decode_ASCII; [reflexivity | exact Hb]. Qed.

(** X17 on the stream of [sentinel_then_event]. *)
Lemma ASCII_is_decoded_as_it_is_witness :
  Forall (fun b => (Byte.to_N b <= 127)%N) (List.concat sentinel_then_event)
  /\ decoded (List.concat sentinel_then_event)
     = map Byte.to_N (List.concat sentinel_then_event).
Proof.
  assert (H : Forall (fun b => (Byte.to_N b <= 127)%N)
                (List.concat sentinel_then_event)).
  { apply Forall_forall. intros b Hin.
    apply N.leb_le.
    revert b Hin. apply forallb_forall. vm_compute. reflexivity. }
  split; [exact H |].
  apply (ASCII_is_decoded_as_it_is sentinel_then_event H).
Defined.

(** ** [DEBUG] *)

Lemma off_console_events_app (a b : list event) :
  off_console_events (a ++ b) = off_console_events a ++ off_console_events b.
Proof. apply filter_app. Qed.

Lemma off_console_app (a b : list effect) :
  off_console (a ++ b) = off_console a ++ off_console b.
Proof. apply filter_app. Qed.

Lemma off_console_in_stream (tr : list event) :
  off_console (map in_stream tr) = map in_stream (off_console_events tr).
Proof.
  induction tr as [|e tr IH]; [reflexivity |].
  cbn [map off_console off_console_events filter is_console].
  destruct (is_console_event e); cbn [negb map]; [exact IH |].
  f_equal. exact IH.
Qed.

(** Apart from the console, a line does with [DEBUG] what it does
    without. *)
Lemma processLine_off_console
      (P : Platform) (model : value) (line : jsstring) (w w0 : world) :
  clock w = clock w0 ->
  off_console_events (trace w) = off_console_events (trace w0) ->
  off_console_events (trace (processLine (H := P) model line w))
  = off_console_events
      (trace (processLine (H := with_DEBUG false P) model line w0))
  /\ clock (processLine (H := P) model line w)
     = clock (processLine (H := with_DEBUG false P) model line w0).
Proof.
  intros Hk Ht. unfold processLine, processLine_catch, Date_now_call.
  change (@DEBUG (with_DEBUG false P)) with false.
  change (@JSON_parse (with_DEBUG false P)) with (@JSON_parse P).
  change (@Date_now (with_DEBUG false P)) with (@Date_now P).
  change (@openAIChunk (with_DEBUG false P)) with (@openAIChunk P).
  repeat match goal with
         | |- context [if ?c then _ else _] => destruct c eqn:?
         | |- context [match ?x with _ => _ end] => destruct x eqn:?
         end;
    unfold emit; cbn [trace clock]; rewrite <- ?Hk;
    rewrite ?off_console_events_app, Ht;
    cbn [off_console_events filter is_console_event negb];
    rewrite ?app_nil_r; split; reflexivity.
Qed.

Lemma process_lines_off_console
      (P : Platform) (model : value) (lines : list jsstring) (w w0 : world) :
  clock w = clock w0 ->
  off_console_events (trace w) = off_console_events (trace w0) ->
  off_console_events (trace (process_lines (H := P) model lines w))
  = off_console_events
      (trace (process_lines (H := with_DEBUG false P) model lines w0))
  /\ clock (process_lines (H := P) model lines w)
     = clock (process_lines (H := with_DEBUG false P) model lines w0).
Proof.
  revert w w0. induction lines as [|l lines IH]; intros w w0 Hk Ht.
  - split; assumption.
  - rewrite !process_lines_cons.
    destruct (processLine_off_console P model l w w0 Hk Ht) as (T & K).
    apply IH; assumption.
Qed.

Lemma handler_stream_off_console
      (P : Platform) (model : value) (reads : list read) (w : world) :
  off_console_events (trace (handler_stream (H := P) model reads w))
  = off_console_events
      (trace (handler_stream (H := with_DEBUG false P) model reads w))
  /\ clock (handler_stream (H := P) model reads w)
     = clock (handler_stream (H := with_DEBUG false P) model reads w).
Proof.
  destruct (reads_shape reads) as [(chunks & ->) | (chunks & e & later & ->)].
  - rewrite !handler_stream_lines, !trace_emit, !clock_emit,
      !off_console_events_app.
    destruct (process_lines_off_console P model
                (lines_to_process (decoded (List.concat chunks))) w w
                eq_refl eq_refl) as (T & K).
    rewrite T, K. split; reflexivity.
  - unfold handler_stream. fold (opened w).
    rewrite !read_loop_rejects, !trace_emit, !clock_emit,
      !off_console_events_app.
    rewrite !feed_lines_of by constructor. cbn [out opened buffer decoder].
    rewrite !on_line_filter.
    destruct (process_lines_off_console P model
                (filter (fun l => negb (blank l))
                   (fst (lines_of []
                           (fst (TextDecoder.decode TextDecoder.fresh
                                   (List.concat chunks)))))) w w
                eq_refl eq_refl) as (T & K).
    rewrite T, K. split; reflexivity.
Qed.

Section HandlerDebug.
Variable P : Platform.
Variable fetch : upstream_call -> result response.

Lemma handler_try_off_console (req : request) (clock0 : nat) :
  off_console (fst (fst (handler_try (H := P) fetch req clock0)))
  = off_console
      (fst (fst (handler_try (H := with_DEBUG false P) fetch req clock0)))
  /\ snd (fst (handler_try (H := P) fetch req clock0))
     = snd (fst (handler_try (H := with_DEBUG false P) fetch req clock0))
  /\ snd (handler_try (H := P) fetch req clock0)
     = snd (handler_try (H := with_DEBUG false P) fetch req clock0).
Proof.
  unfold handler_try.
  change (@DEBUG (with_DEBUG false P)) with false.
  change (@ToString (with_DEBUG false P)) with (@ToString P).
  change (@convertOpenAIToGoogle (with_DEBUG false P))
    with (@convertOpenAIToGoogle P).
  destruct (req_authorization req) as [authHeader|];
    [| repeat split; reflexivity].
  destruct (negb (startsWith authHeader (lit "Bearer ")));
    [repeat split; reflexivity |].
  destruct (nth_error (split_space authHeader) 1) as [[|c apiKey]|];
    [repeat split; reflexivity | | repeat split; reflexivity].
  destruct (member (req_body req) (lit "stream")) as [stream|e];
    [| repeat split; reflexivity].
  destruct (handler_model (req_body req)) as [model|e];
    [| repeat split; reflexivity].
  destruct (ToString model) as [model_text|e];
    [| repeat split; reflexivity].
  destruct (convertOpenAIToGoogle (req_body req)) as [googleRequest|e];
    [| repeat split; reflexivity].
  cbv zeta. cbn [app].
  match goal with
  | |- context [fetch ?c] => generalize c; intro call
  end.
  destruct (fetch call) as [answer|e].
  2:{ cbn [fst snd]. rewrite !off_console_app.
      destruct DEBUG; repeat split; reflexivity. }
  destruct (negb (response_ok answer)).
  { unfold upstream_failed.
    change (@DEBUG (with_DEBUG false P)) with false.
    destruct (response_json answer) as [errorData|e].
    2:{ cbn [fst snd]. rewrite !off_console_app.
        destruct DEBUG; repeat split; reflexivity. }
    cbv zeta.
    destruct (member errorData (lit "error")) as [error|e];
      cbn [fst snd]; rewrite !off_console_app;
      destruct DEBUG; repeat split; reflexivity. }
  match goal with
  | |- context [if ?b then answer_stream _ _ _ _ else _] => destruct b
  end.
  - unfold answer_stream. cbv zeta. cbn [fst snd].
    destruct (handler_stream_off_console P model (response_reads answer)
                {| trace := []; clock := clock0 |}) as (T & K).
    rewrite !off_console_app, !off_console_in_stream, T, K.
    destruct DEBUG; repeat split; reflexivity.
  - unfold answer_whole.
    change (@DEBUG (with_DEBUG false P)) with false.
    change (@convertGoogleToOpenAI (with_DEBUG false P))
      with (@convertGoogleToOpenAI P).
    destruct (response_json answer) as [googleResponse|e].
    2:{ cbn [fst snd]. rewrite !off_console_app.
        destruct DEBUG; repeat split; reflexivity. }
    cbv zeta.
    destruct (convertGoogleToOpenAI googleResponse model
                {| trace := []; clock := clock0 |}) as [[openAIResponse|e] w];
      cbn [fst snd]; rewrite !off_console_app;
      destruct DEBUG; repeat split; reflexivity.
Qed.

Lemma handler_off_console (req : request) (clock0 : nat) :
  off_console (fst (handler (H := P) fetch req clock0))
  = off_console (fst (handler (H := with_DEBUG false P) fetch req clock0))
  /\ snd (handler (H := P) fetch req clock0)
     = snd (handler (H := with_DEBUG false P) fetch req clock0).
Proof.
  unfold handler.
  destruct (eqb (req_method req) (lit "OPTIONS")); [split; reflexivity |].
  destruct (negb (eqb (req_method req) (lit "POST"))); [split; reflexivity |].
  destruct (handler_try_off_console req clock0) as (D & K & T).
  destruct (handler_try (H := P) fetch req clock0) as [[done k] thrown].
  destruct (handler_try (H := with_DEBUG false P) fetch req clock0)
    as [[done0 k0] thrown0].
  cbn [fst snd] in D, K, T. subst k0 thrown0.
  destruct thrown as [e|]; cbn [fst snd];
    rewrite !off_console_app, D; split; reflexivity.
Qed.

End HandlerDebug.

(** X18. [DEBUG] changes nothing but the console: with the flag set or
    not, the handler sets the same headers, calls the backend with the same
    request, writes the same records and gives the same answer, in the same
    order, and reads the clock as many times.  Only lines on the console
    come or go. *)
Theorem DEBUG_changes_only_the_console
        (P : Platform) (fetch : upstream_call -> result response)
        (flag flag' : bool) (req : request) (clock0 : nat) :
  off_console (fst (handler (H := with_DEBUG flag P) fetch req clock0))
  = off_console (fst (handler (H := with_DEBUG flag' P) fetch req clock0))
  /\ snd (handler (H := with_DEBUG flag P) fetch req clock0)
     = snd (handler (H := with_DEBUG flag' P) fetch req clock0).
Proof.
  destruct (@handler_off_console (with_DEBUG flag P) fetch req clock0)
    as (D & K).
  destruct (@handler_off_console (with_DEBUG flag' P) fetch req clock0)
    as (D' & K').
  change (with_DEBUG false (with_DEBUG flag P)) with (with_DEBUG false P)
    in D, K.
  change (with_DEBUG false (with_DEBUG flag' P)) with (with_DEBUG false P)
    in D', K'.
  split; [rewrite D, D' | rewrite K, K']; reflexivity.
Qed.
